(** * solo/dfu.py: the ST DFU bootloader driver, embedded and verified

    The driver talks to a USB device through pyusb.  The embedding keeps the
    driver code as it is written and makes the outside world explicit:
    every pyusb call is a handler of a [Backend], every call and every
    [time.sleep] is recorded in the [trace] of the [World], Python
    exceptions are the [Raise] outcome, and the only loop without a bound
    ([block_on_state]) runs on fuel, with [OutOfFuel] as its own outcome. *)

From Stdlib Require Import ZArith NArith List Ascii String Bool Lia DecimalString.
Import ListNotations.
Open Scope Z_scope.

(** ** Exceptions *)

(** The exception classes the driver raises, catches or lets through.
    [USBError] is pyusb's [usb.core.USBError], a subclass of [IOError]
    (that is, of [OSError]); [OSError] stands for the other OS errors. *)
Inductive exn : Type :=
| RuntimeError (msg : string)
| NonUniqueDeviceError
| USBError (errno : option Z)
| OSError (errno : option Z)
| AssertionError
| ZeroDivisionError
| StructError
| Exception_ (msg : string)
| OtherError (name : string).

(** Modelled from the spec: solo/exceptions.py is not under src/.  The spec
    (section 7) makes NonUniqueDevice a class of its own, fatal and never
    retried, so it is a constructor apart from [RuntimeError], and the
    handler [except RuntimeError] does not catch it. *)
Definition is_RuntimeError (e : exn) : bool :=
  match e with RuntimeError _ => true | _ => false end.

(** [except OSError] catches [USBError] as well. *)
Definition is_OSError (e : exn) : bool :=
  match e with USBError _ | OSError _ => true | _ => false end.

(** [errno.EPIPE] *)
Definition EPIPE : Z := 32.

(** [e.errno == errno.EPIPE] for an [e] caught by [except usb.core.USBError]. *)
Definition is_EPIPE (e : exn) : bool :=
  match e with USBError (Some n) => n =? EPIPE | _ => false end.

(** ** Address translator (static methods of DFUDevice) *)

Definition FLASH_BASE : Z := 0x08000000.

Definition addr2list (a : Z) : list Z :=
  [Z.land a 0xFF; Z.land (Z.shiftr a 8) 0xFF;
   Z.land (Z.shiftr a 16) 0xFF; Z.land (Z.shiftr a 24) 0xFF].

(** Python's [//] floors, as [Z.div] does, and raises on a zero divisor. *)
Definition addr2block (addr size : Z) : exn + Z :=
  let addr := addr - 0x08000000 in
  if size =? 0 then inl ZeroDivisionError
  else
    let addr := addr / size in
    let addr := addr + 2 in
    inr addr.

Definition block2addr (addr size : Z) : Z :=
  let addr := addr - 2 in
  let addr := addr * size in
  let addr := addr + 0x08000000 in
  addr.

(** ** Status model *)

(** Modelled from the spec: solo/commands.py (DFU.state, DFU.status,
    DFU.bmReq, STM32L4.options) is not under src/.  The states are the enum
    of section 3 of the spec, a status is the snapshot
    [{state, poll_timeout_ms, status_code}] of that section, and the request
    codes are the rows of the table of section 6. *)
Inductive DfuState : Type :=
| APP_IDLE | APP_DETACH | IDLE | DOWNLOAD_SYNC | DOWNLOAD_BUSY
| DOWNLOAD_IDLE | MANIFEST_SYNC | MANIFEST | MANIFEST_WAIT_RESET
| UPLOAD_IDLE | ERROR.

Definition DfuState_eqb (a b : DfuState) : bool :=
  match a, b with
  | APP_IDLE, APP_IDLE | APP_DETACH, APP_DETACH | IDLE, IDLE
  | DOWNLOAD_SYNC, DOWNLOAD_SYNC | DOWNLOAD_BUSY, DOWNLOAD_BUSY
  | DOWNLOAD_IDLE, DOWNLOAD_IDLE | MANIFEST_SYNC, MANIFEST_SYNC
  | MANIFEST, MANIFEST | MANIFEST_WAIT_RESET, MANIFEST_WAIT_RESET
  | UPLOAD_IDLE, UPLOAD_IDLE | ERROR, ERROR => true
  | _, _ => false
  end.

Record DfuStatus : Type := mkStatus {
  status : Z;
  timeout : N;
  state_of : DfuState
}.

Inductive bmReq : Type := DNLOAD | UPLOAD | GETSTATUS | CLRSTATUS.

(** [s not in (a, b)] *)
Definition not_in (s : DfuState) (l : list DfuState) : bool :=
  negb (existsb (DfuState_eqb s) l).

(** ** The outside world *)

(** What [usb.core.find(..., find_all=True)] hands back: [None], one
    device, or an iterable of devices. *)
Inductive find_result (Dev : Type) : Type :=
| FoundNone
| FoundOne (d : Dev)
| FoundMany (l : list Dev).
Arguments FoundNone {Dev}.
Arguments FoundOne {Dev} d.
Arguments FoundMany {Dev} l.

(** One entry of the trace per call that leaves the driver. *)
Inductive event (Dev : Type) : Type :=
| EvFind (idVendor idProduct : Z)
| EvGetString (d : Dev)
| EvSetConfiguration (d : Dev)
| EvSetAltsetting (d : Dev) (interface alternate_setting : Z)
| EvSend (d : Dev) (req : bmReq) (wValue wIndex : Z) (data : option (list Z))
| EvReceive (d : Dev) (req : bmReq) (wValue wIndex : Z) (size : Z)
| EvSleep (ms : N)
| EvPrint (s : string).
Arguments EvFind {Dev}.
Arguments EvGetString {Dev}.
Arguments EvSetConfiguration {Dev}.
Arguments EvSetAltsetting {Dev}.
Arguments EvSend {Dev}.
Arguments EvReceive {Dev}.
Arguments EvSleep {Dev}.
Arguments EvPrint {Dev}.

(** pyusb as the driver uses it.  [D] is the state of the bus and of the
    devices on it.  A control transfer of type [DFU.type.SEND] returns the
    number of bytes written, one of type [DFU.type.RECEIVE] the bytes read;
    descriptors ([configurations], [interfaces], [cfg[(i, alt)]]) are data
    of the device. *)
Record Backend (Dev Cfg Intf D : Type) : Type := {
  usb_core_find : Z -> Z -> D -> (exn + find_result Dev) * D;
  usb_util_get_string : Dev -> D -> (exn + string) * D;
  set_configuration : Dev -> D -> (exn + unit) * D;
  configurations : Dev -> list Cfg;
  interfaces : Cfg -> list Intf;
  cfg_getitem : Cfg -> Z -> Z -> exn + Intf;
  set_interface_altsetting : Dev -> Z -> Z -> D -> (exn + unit) * D;
  ctrl_transfer_send :
    Dev -> bmReq -> Z -> Z -> option (list Z) -> D -> (exn + Z) * D;
  ctrl_transfer_receive :
    Dev -> bmReq -> Z -> Z -> Z -> D -> (exn + list Z) * D
}.
Arguments usb_core_find {Dev Cfg Intf D}.
Arguments usb_util_get_string {Dev Cfg Intf D}.
Arguments set_configuration {Dev Cfg Intf D}.
Arguments configurations {Dev Cfg Intf D}.
Arguments interfaces {Dev Cfg Intf D}.
Arguments cfg_getitem {Dev Cfg Intf D}.
Arguments set_interface_altsetting {Dev Cfg Intf D}.
Arguments ctrl_transfer_send {Dev Cfg Intf D}.
Arguments ctrl_transfer_receive {Dev Cfg Intf D}.

(** The parts of solo/commands.py the driver reads: the decoder
    [DFU.status(s)] of a status response and the two option bits of
    [STM32L4.options].  They are parameters of the development. *)
Record Commands : Type := {
  DFU_status : list Z -> exn + DfuStatus;
  nBOOT0 : Z;
  nSWBOOT0 : Z
}.

Record World (Dev D : Type) : Type := mkWorld {
  bus : D;
  trace : list (event Dev)
}.
Arguments mkWorld {Dev D}.
Arguments bus {Dev D}.
Arguments trace {Dev D}.

(** ** Outcomes and the driver monad *)

Inductive outcome (A : Type) : Type :=
| Ok (a : A)
| Raise (e : exn)
| OutOfFuel.
Arguments Ok {A} a.
Arguments Raise {A} e.
Arguments OutOfFuel {A}.

Definition M (W A : Type) : Type := W -> outcome A * W.

Definition ret {W A} (a : A) : M W A := fun w => (Ok a, w).

Definition raise {W A} (e : exn) : M W A := fun w => (Raise e, w).

Definition bind {W A B} (m : M W A) (k : A -> M W B) : M W B :=
  fun w =>
    match m w with
    | (Ok a, w') => k a w'
    | (Raise e, w') => (Raise e, w')
    | (OutOfFuel, w') => (OutOfFuel, w')
    end.

(** [try: m except <class>: h], the class given by [catches]. *)
Definition try_except {W A} (m : M W A) (catches : exn -> bool) (h : M W A)
  : M W A :=
  fun w =>
    match m w with
    | (Raise e, w') => if catches e then h w' else (Raise e, w')
    | r => r
    end.

Definition lift {W A} (r : exn + A) : M W A :=
  match r with inl e => raise e | inr a => ret a end.

Declare Scope dfu_scope.
Delimit Scope dfu_scope with dfu.
Notation "x <- m ;; k" := (bind m (fun x => k))
  (at level 61, m at next level, right associativity) : dfu_scope.
Notation "m ;; k" := (bind m (fun _ => k))
  (at level 61, right associativity) : dfu_scope.
Open Scope dfu_scope.

(** ** Little-endian words ([struct.pack] and [struct.unpack] with ["<L"]) *)

Definition unpack_L (b : list Z) : exn + Z :=
  match b with
  | [b0; b1; b2; b3] =>
      inr (b0 + Z.shiftl b1 8 + Z.shiftl b2 16 + Z.shiftl b3 24)
  | _ => inl StructError
  end.

Definition pack_L (v : Z) : exn + list Z :=
  if (0 <=? v) && (v <? 2 ^ 32) then inr (addr2list v) else inl StructError.

(** ** The driver *)

(** A [DFUDevice] once [find] has bound it: [self.dev], [self.intNum] and
    [self.intf]. *)
Record DFUDevice (Dev Intf : Type) : Type := mkDFU {
  dev : Dev;
  intNum : Z;
  intf : Intf
}.
Arguments mkDFU {Dev Intf}.
Arguments dev {Dev Intf}.
Arguments intNum {Dev Intf}.
Arguments intf {Dev Intf}.

Section Driver.

Context {Dev Cfg Intf D : Type}.
Variable usb : Backend Dev Cfg Intf D.
Variable cmds : Commands.

Let world : Type := World Dev D.
Let self_t : Type := DFUDevice Dev Intf.

(** *** Calls that leave the driver: performed on the bus, then logged *)

Definition call {A} (ev : event Dev) (h : D -> (exn + A) * D)
  : M world A :=
  fun w =>
    let '(r, d) := h (bus w) in
    let w' := mkWorld d (trace w ++ [ev]) in
    match r with
    | inl e => (Raise e, w')
    | inr a => (Ok a, w')
    end.

(** [time.sleep], in milliseconds *)
Definition sleep (ms : N) : M world unit :=
  fun w => (Ok tt, mkWorld (bus w) (trace w ++ [EvSleep ms])).

Definition print (s : string) : M world unit :=
  fun w => (Ok tt, mkWorld (bus w) (trace w ++ [EvPrint s])).

Definition ctrl_send (d : Dev) (req : bmReq) (wValue wIndex : Z)
  (data : option (list Z)) : M world Z :=
  call (EvSend d req wValue wIndex data)
       (ctrl_transfer_send usb d req wValue wIndex data).

Definition ctrl_receive (d : Dev) (req : bmReq) (wValue wIndex size : Z)
  : M world (list Z) :=
  call (EvReceive d req wValue wIndex size)
       (ctrl_transfer_receive usb d req wValue wIndex size).

(** *** DFUDevice.find *)

(** [[d for d in _devs if ser == usb.util.get_string(d, d.serial_number)]] *)
Fixpoint eligible_by_serial (ser : string) (devs : list Dev)
  : M world (list Dev) :=
  match devs with
  | [] => ret []
  | d :: rest =>
      s <- call (EvGetString d) (usb_util_get_string usb d) ;;
      tl <- eligible_by_serial ser rest ;;
      ret (if String.eqb ser s then d :: tl else tl)
  end.

(** The inner loop [for intf_num, intf in enumerate(cfg.interfaces())]. *)
Fixpoint scan_interfaces (d : Dev) (cfg : Cfg) (altsetting : Z)
  (intf_num : Z) (intfs : list Intf) : M world (option self_t) :=
  match intfs with
  | [] => ret None
  | _ :: rest =>
      match cfg_getitem usb cfg intf_num altsetting with
      | inl (USBError _) =>
          scan_interfaces d cfg altsetting (intf_num + 1) rest
      | inl e => raise e
      | inr alt_intf =>
          call (EvSetAltsetting d intf_num altsetting)
               (set_interface_altsetting usb d intf_num altsetting) ;;
          ret (Some (mkDFU d intf_num alt_intf))
      end
  end.

(** The outer loop [for cfg in self.dev.configurations()]. *)
Fixpoint scan_configurations (d : Dev) (altsetting : Z) (cfgs : list Cfg)
  : M world (option self_t) :=
  match cfgs with
  | [] => ret None
  | cfg :: rest =>
      r <- scan_interfaces d cfg altsetting 0 (interfaces usb cfg) ;;
      match r with
      | Some self => ret (Some self)
      | None => scan_configurations d altsetting rest
      end
  end.

Definition decimal (z : Z) : string := NilZero.string_of_int (Z.to_int z).

(** The first half of [DFUDevice.find]: which device [self.dev] becomes. *)
Definition select_device (ser : option string) (dev : option Dev)
  : M world Dev :=
  match dev with
  | Some d => ret d
  | None =>
      devs <- call (EvFind 0x0483 0xDF11) (usb_core_find usb 0x0483 0xDF11) ;;
      match devs with
      | FoundNone => raise (RuntimeError "No ST DFU devices found.")
      | _ =>
          let _devs :=
            match devs with
            | FoundOne d => [d]
            | FoundMany l => l
            | FoundNone => []
            end in
          eligible <-
            match ser with
            | Some s => eligible_by_serial s _devs
            | None => ret _devs
            end ;;
          if (1 <? Z.of_nat (List.length eligible)) then
            raise NonUniqueDeviceError
          else
            match eligible with
            | [] => raise (RuntimeError "No ST DFU devices found.")
            | d :: _ => ret d
            end
      end
  end.

Definition DFUDevice_find (altsetting : Z) (ser : option string)
  (dev : option Dev) : M world self_t :=
  d <- select_device ser dev ;;
  call (EvSetConfiguration d) (set_configuration usb d) ;;
  r <- scan_configurations d altsetting (configurations usb d) ;;
  match r with
  | Some self => ret self
  | None =>
      raise (RuntimeError
               ("No ST DFU alternate-" ++ decimal altsetting ++ " found."))
  end.

(** *** Status queries *)

(** The [while True] of [get_status]: every turn breaks, raises, or counts
    [tries] down, so [tries] is the measure. *)
Fixpoint get_status_loop (self : self_t) (tries : nat)
  : M world (list Z) :=
  fun w =>
    match ctrl_receive (dev self) GETSTATUS 0 (intNum self) 6 w with
    | (Raise e, w') =>
        match e with
        | USBError _ =>
            if is_EPIPE e then
              match tries with
              | S tries' =>
                  (sleep 10 ;; get_status_loop self tries') w'
              | O =>
                  (Raise (RuntimeError "Failed to get status from DFU."), w')
              end
            else (Raise e, w')
        | _ => (Raise e, w')
        end
    | r => r
    end.

Definition get_status (self : self_t) : M world DfuStatus :=
  s <- get_status_loop self 3 ;;
  lift (DFU_status cmds s).

Definition state (self : self_t) : M world DfuState :=
  s <- get_status self ;;
  ret (state_of s).

Definition clear_status (self : self_t) : M world unit :=
  ctrl_send (dev self) CLRSTATUS 0 (intNum self) None ;;
  ret tt.

Definition upload (self : self_t) (block size : Z) : M world (list Z) :=
  ctrl_receive (dev self) UPLOAD block (intNum self) size.

Definition dnload (self : self_t) (block : Z) (data : list Z) : M world Z :=
  ctrl_send (dev self) DNLOAD block (intNum self) (Some data).

Definition set_addr (self : self_t) (addr : Z) : M world Z :=
  dnload self 0x0 ([0x21] ++ addr2list addr).

Definition erase (self : self_t) (a : Z) : M world Z :=
  let d := [0x41; Z.land a 0xFF; Z.land (Z.shiftr a 8) 0xFF;
            Z.land (Z.shiftr a 16) 0xFF; Z.land (Z.shiftr a 24) 0xFF] in
  dnload self 0x0 d.

(** [s = get_status(); while s.state == state: sleep; s = get_status()].
    The loop has no bound in the source; [fuel] bounds its iterations here
    and running out of it is [OutOfFuel], never a result. *)
Fixpoint block_on_state_loop (fuel : nat) (self : self_t) (st : DfuState)
  (s : DfuStatus) : M world unit :=
  if DfuState_eqb (state_of s) st then
    match fuel with
    | O => fun w => (OutOfFuel, w)
    | S fuel' =>
        sleep (timeout s) ;;
        s' <- get_status self ;;
        block_on_state_loop fuel' self st s'
    end
  else ret tt.

Definition block_on_state (fuel : nat) (self : self_t) (st : DfuState)
  : M world unit :=
  s <- get_status self ;;
  block_on_state_loop fuel self st s.

(** [assert DFU.state.DOWNLOAD_IDLE == self.state()] *)
Definition assert_download_idle (self : self_t) : M world unit :=
  s <- state self ;;
  if DfuState_eqb DOWNLOAD_IDLE s then ret tt else raise AssertionError.

Definition mass_erase (fuel : nat) (self : self_t) : M world unit :=
  dnload self 0x0 [0x41] ;;
  block_on_state fuel self DOWNLOAD_BUSY ;;
  assert_download_idle self.

(** The check that opens [write_page], [read_mem] and [detach]. *)
Definition check_state (self : self_t) (valid : list DfuState)
  (msg : string) : M world unit :=
  s <- state self ;;
  (if not_in s valid then clear_status self ;; clear_status self
   else ret tt) ;;
  s <- state self ;;
  if not_in s valid then raise (RuntimeError msg) else ret tt.

Definition write_page (fuel : nat) (self : self_t) (addr : Z)
  (data : list Z) : M world unit :=
  check_state self [IDLE; DOWNLOAD_IDLE]
    "DFU device not in correct state for writing memory." ;;
  addr <- lift (addr2block addr (Z.of_nat (List.length data))) ;;
  dnload self addr data ;;
  block_on_state fuel self DOWNLOAD_BUSY ;;
  assert_download_idle self.

Definition read_mem (self : self_t) (addr size : Z) : M world (list Z) :=
  addr <- lift (addr2block addr size) ;;
  check_state self [IDLE; UPLOAD_IDLE]
    "DFU device not in correct state for reading memory." ;;
  upload self addr size.

Definition read_option_bytes (fuel : nat) (self : self_t)
  : M world (list Z) :=
  let ptr := 0x1FFF7800 in
  set_addr self ptr ;;
  block_on_state fuel self DOWNLOAD_BUSY ;;
  m <- read_mem self 0 16 ;;
  ret m.

Definition write_option_bytes (fuel : nat) (self : self_t) (m : list Z)
  : M world unit :=
  block_on_state fuel self DOWNLOAD_BUSY ;;
  try_except
    (write_page fuel self 0 m ;;
     block_on_state fuel self DOWNLOAD_BUSY)
    is_OSError
    (print "Warning: OSError with write_page").

(** [op |= nBOOT0; op &= ~nSWBOOT0] *)
Definition boot_word (op : Z) : Z :=
  let op := Z.lor op (nBOOT0 cmds) in
  let op := Z.land op (Z.lnot (nSWBOOT0 cmds)) in
  op.

(** The second half of [prepare_options_bytes_detach], from the option
    bytes [m] that were read. *)
Definition rewrite_if_changed (fuel : nat) (self : self_t) (m : list Z)
  : M world unit :=
  op <- lift (unpack_L (firstn 4 m)) ;;
  let oldop := op in
  let op := boot_word op in
  if negb (oldop =? op) then
    print "Rewriting option bytes..." ;;
    b <- lift (pack_L op) ;;
    let m := b ++ skipn 4 m in
    write_option_bytes fuel self m
  else ret tt.

Definition prepare_options_bytes_detach (fuel : nat) (self : self_t)
  : M world unit :=
  m <- read_mem self 0 16 ;;
  write_option_bytes fuel self m ;;
  m <- read_option_bytes fuel self ;;
  rewrite_if_changed fuel self m.

Definition detach (self : self_t) : M world DfuStatus :=
  check_state self [IDLE; DOWNLOAD_IDLE]
    "DFU device not in correct state for detaching." ;;
  dnload self 0x0 [] ;;
  get_status self.

(** *** Module-level find *)

(** [for i in range(attempts)]: one [DFUDevice.find] per turn, a quarter
    of a second of sleep after each [RuntimeError]. *)
Fixpoint find_loop (n : nat) (dfu_serial : option string)
  (raw_device : option Dev) (altsetting : Z) : M world self_t :=
  match n with
  | O => raise (Exception_ "no DFU found")
  | S n' =>
      fun w =>
        match DFUDevice_find altsetting dfu_serial raw_device w with
        | (Raise e, w') =>
            if is_RuntimeError e then
              (sleep 250 ;; find_loop n' dfu_serial raw_device altsetting) w'
            else (Raise e, w')
        | r => r
        end
  end.

Definition find (dfu_serial : option string) (attempts : Z)
  (raw_device : option Dev) (altsetting : Z) : M world self_t :=
  find_loop (Z.to_nat attempts) dfu_serial raw_device altsetting.

End Driver.

(** ** What the transport answers: chains of responses *)

Section Responses.

Context {Dev Cfg Intf D : Type}.
Variable usb : Backend Dev Cfg Intf D.
Variable cmds : Commands.

(** The event of one GETSTATUS transfer of [self]. *)
Definition ev_getstatus (self : DFUDevice Dev Intf) : event Dev :=
  EvReceive (dev self) GETSTATUS 0 (intNum self) 6.

Definition ev_clrstatus (self : DFUDevice Dev Intf) : event Dev :=
  EvSend (dev self) CLRSTATUS 0 (intNum self) None.

(** From bus state [d] the next [length rs] status transfers succeed and
    decode to [rs], leaving the bus in [d']. *)
Fixpoint answers (self : DFUDevice Dev Intf) (rs : list DfuStatus)
  (d d' : D) : Prop :=
  match rs with
  | [] => d = d'
  | s :: rest =>
      exists raw d1,
        ctrl_transfer_receive usb (dev self) GETSTATUS 0 (intNum self) 6 d
          = (inr raw, d1)
        /\ DFU_status cmds raw = inr s
        /\ answers self rest d1 d'
  end.

(** From bus state [d] the next [k] status transfers stall (USBError with
    errno EPIPE), leaving the bus in [d']. *)
Fixpoint stalls (self : DFUDevice Dev Intf) (k : nat) (d d' : D) : Prop :=
  match k with
  | O => d = d'
  | S k' =>
      exists e d1,
        ctrl_transfer_receive usb (dev self) GETSTATUS 0 (intNum self) 6 d
          = (inl e, d1)
        /\ is_EPIPE e = true
        /\ stalls self k' d1 d'
  end.

(** What [get_status] makes of the transfer that ends its loop. *)
Definition status_outcome (r : exn + list Z) : outcome DfuStatus :=
  match r with
  | inr raw =>
      match DFU_status cmds raw with
      | inr s => Ok s
      | inl e => Raise e
      end
  | inl e =>
      if is_EPIPE e then Raise (RuntimeError "Failed to get status from DFU.")
      else Raise e
  end.

(** [k] stalled status transfers, each followed by its 10 ms sleep. *)
Definition retry_events (self : DFUDevice Dev Intf) (k : nat)
  : list (event Dev) :=
  List.concat (repeat [ev_getstatus self; EvSleep 10] k).

(** The polls of [block_on_state] that found the awaited state: one status
    transfer and the sleep of the reported time-out for each. *)
Definition poll_events (self : DFUDevice Dev Intf) (busy : list DfuStatus)
  : list (event Dev) :=
  flat_map (fun s => [ev_getstatus self; EvSleep (timeout s)]) busy.

(** The serial number of every device of [devs] is read and differs from
    [ser]. *)
Fixpoint none_has_serial (ser : string) (devs : list Dev) (d d' : D)
  : Prop :=
  match devs with
  | [] => d = d'
  | x :: rest =>
      exists s d1,
        usb_util_get_string usb x d = (inr s, d1)
        /\ String.eqb ser s = false
        /\ none_has_serial ser rest d1 d'
  end.

Definition devices_of (r : find_result Dev) : list Dev :=
  match r with
  | FoundNone => []
  | FoundOne x => [x]
  | FoundMany l => l
  end.

(** One enumeration from bus state [d] finds zero matching devices: none
    is enumerated, or a serial is asked for and none has it. *)
Definition no_match (ser : option string) (d d' : D) : Prop :=
  exists r d1,
    usb_core_find usb 0x0483 0xDF11 d = (inr r, d1)
    /\ match ser with
       | Some s => none_has_serial s (devices_of r) d1 d'
       | None => devices_of r = [] /\ d1 = d'
       end.

Definition is_find_or_sleep (ev : event Dev) : bool :=
  match ev with
  | EvFind _ _ | EvSleep _ => true
  | _ => false
  end.

(** Events that are neither a download nor an upload transfer. *)
Definition no_transfer (ev : event Dev) : Prop :=
  match ev with
  | EvSend _ DNLOAD _ _ _ => False
  | EvReceive _ UPLOAD _ _ _ => False
  | _ => True
  end.

(** Events of a status query: GETSTATUS transfers and sleeps. *)
Definition status_event (ev : event Dev) : Prop :=
  match ev with
  | EvReceive _ GETSTATUS _ _ _ => True
  | EvSleep _ => True
  | _ => False
  end.

(** [m] only adds events to the trace, all of them in [P]. *)
Definition emits {A} (P : event Dev -> Prop) (m : M (World Dev D) A)
  : Prop :=
  forall w, exists evs,
    trace (snd (m w)) = trace w ++ evs /\ Forall P evs.

End Responses.

(** ** Two claims as the spec words them *)

Section Claimed.

Context {Dev Cfg Intf D : Type}.
Variable usb : Backend Dev Cfg Intf D.
Variable cmds : Commands.

(** [erase] as section 4.3 of the spec words it: the download of
    [[0x41] + address], then the wait on [DOWNLOAD_BUSY], then the
    assertion of [DOWNLOAD_IDLE]. *)
Definition erase_then_wait_and_assert (fuel : nat)
  (self : DFUDevice Dev Intf) (a : Z) : M (World Dev D) unit :=
  dnload usb self 0 ([0x41] ++ addr2list a) ;;
  block_on_state usb cmds fuel self DOWNLOAD_BUSY ;;
  assert_download_idle usb cmds self.

(** The enumerations and sleeps of a discovery that never finds a device,
    with the back-off between two attempts only: [n] enumerations and
    [n - 1] sleeps. *)
Definition backoff_between_attempts (n : nat) : list (event Dev) :=
  match n with
  | O => []
  | S k =>
      List.concat (repeat [EvFind 0x0483 0xDF11; EvSleep 250] k)
      ++ [EvFind 0x0483 0xDF11]
  end.

(** The same with a sleep after every attempt, the last one too. *)
Definition backoff_after_each_attempt (n : nat) : list (event Dev) :=
  List.concat (repeat [EvFind 0x0483 0xDF11; EvSleep 250] n).

End Claimed.

(** ** The rest of the driver *)

Section DriverRest.

Context {Dev Cfg Intf D : Type}.
Variable usb : Backend Dev Cfg Intf D.
Variable cmds : Commands.

Let world : Type := World Dev D.
Let self_t : Type := DFUDevice Dev Intf.

(** The inner loop of [set_alt].  Unlike the loop of [DFUDevice.find] it
    does not return at the first interface that has the alternate
    setting: it selects it on every one that has it, and [self.intf] and
    [self.intNum] end as the last one.  The driver object is threaded
    through; of a run that raises only the exception is kept. *)
Fixpoint set_alt_interfaces (self : self_t) (cfg : Cfg) (altsetting : Z)
  (intf_num : Z) (intfs : list Intf) : M world self_t :=
  match intfs with
  | [] => ret self
  | _ :: rest =>
      match cfg_getitem usb cfg intf_num altsetting with
      | inl (USBError _) =>
          set_alt_interfaces self cfg altsetting (intf_num + 1) rest
      | inl e => raise e
      | inr alt_intf =>
          call (EvSetAltsetting (dev self) intf_num altsetting)
               (set_interface_altsetting usb (dev self) intf_num altsetting) ;;
          set_alt_interfaces (mkDFU (dev self) intf_num alt_intf)
            cfg altsetting (intf_num + 1) rest
      end
  end.

Fixpoint set_alt_configurations (self : self_t) (altsetting : Z)
  (cfgs : list Cfg) : M world self_t :=
  match cfgs with
  | [] => ret self
  | cfg :: rest =>
      self' <- set_alt_interfaces self cfg altsetting 0 (interfaces usb cfg) ;;
      set_alt_configurations self' altsetting rest
  end.

Definition set_alt (self : self_t) (altsetting : Z) : M world self_t :=
  set_alt_configurations self altsetting (configurations usb (dev self)).

Definition init (self : self_t) : M world unit :=
  s <- state usb cmds self ;;
  if DfuState_eqb s ERROR then clear_status usb self else ret tt.

Definition close (self : self_t) : M world unit := ret tt.

(** [[find(raw_device=st_dfu) for st_dfu in _st_dfus]], with the defaults
    of [find]: no serial, 8 attempts, alternate setting 1. *)
Fixpoint find_each (devs : list Dev) : M world (list self_t) :=
  match devs with
  | [] => ret []
  | st_dfu :: rest =>
      dfu <- find usb None 8 (Some st_dfu) 1 ;;
      tl <- find_each rest ;;
      ret (dfu :: tl)
  end.

Definition find_all : M world (list self_t) :=
  st_dfus <- call (EvFind 0x0483 0xDF11) (usb_core_find usb 0x0483 0xDF11) ;;
  match st_dfus with
  | FoundNone => ret []
  | FoundOne d => find_each [d]
  | FoundMany l => find_each l
  end.

(** The transfers of an operation on [self]: control transfers to the
    device and interface [self] is bound to, with a request that [reqs]
    allows, and the sleeps and prints in between. *)
Definition op_event (self : self_t) (reqs : bmReq -> bool) (ev : event Dev)
  : Prop :=
  match ev with
  | EvSend d r _ i _ => d = dev self /\ i = intNum self /\ reqs r = true
  | EvReceive d r _ i _ => d = dev self /\ i = intNum self /\ reqs r = true
  | EvSleep _ => True
  | EvPrint _ => True
  | _ => False
  end.

Definition status_only (r : bmReq) : bool :=
  match r with GETSTATUS => true | _ => false end.

Definition read_requests (r : bmReq) : bool :=
  match r with GETSTATUS | CLRSTATUS | UPLOAD => true | DNLOAD => false end.

Definition write_requests (r : bmReq) : bool :=
  match r with GETSTATUS | CLRSTATUS | DNLOAD => true | UPLOAD => false end.

Definition any_request (r : bmReq) : bool := true.

Definition status_and_clear (r : bmReq) : bool :=
  match r with GETSTATUS | CLRSTATUS => true | _ => false end.

(** From bus state [d] on every status transfer succeeds and decodes to a
    status in state [st], and [inv] is kept: the device stays in [st]. *)
Definition stays_in (self : self_t) (st : DfuState) (inv : D -> Prop)
  : Prop :=
  forall d, inv d ->
    exists raw d1 s,
      ctrl_transfer_receive usb (dev self) GETSTATUS 0 (intNum self) 6 d
        = (inr raw, d1)
      /\ DFU_status cmds raw = inr s
      /\ state_of s = st
      /\ inv d1.

(** No interface of [cfg] from index [k] on has the alternate setting. *)
Fixpoint no_altsetting (cfg : Cfg) (altsetting : Z) (k : Z)
  (intfs : list Intf) : Prop :=
  match intfs with
  | [] => True
  | _ :: rest =>
      (exists n, cfg_getitem usb cfg k altsetting = inl (USBError n))
      /\ no_altsetting cfg altsetting (k + 1) rest
  end.

End DriverRest.

(** The outcome of [f] does not depend on the fuel once the fuel is
    enough: a run that did not run out gives the same with more. *)
Definition fuel_stable {W A : Type} (f : nat -> M W A) : Prop :=
  forall n w r w',
    f n w = (r, w') -> r <> OutOfFuel ->
    forall n', (n <= n')%nat -> f n' w = (r, w').

(** [m] terminates without fuel: it never yields [OutOfFuel]. *)
Definition fuel_free {W A : Type} (m : M W A) : Prop :=
  forall w, fst (m w) <> OutOfFuel.

(** ** solo/fido2/udp_backend.py: the path of a UDP descriptor *)

Module UdpBackend.

Definition ValueError : exn := OtherError "ValueError".

(** [s.split(sep)] for a separator of one character: [n] occurrences give
    [n + 1] pieces, empty ones included. *)
Fixpoint split (sep : Ascii.ascii) (s : string) : list string :=
  match s with
  | EmptyString => [EmptyString]
  | String c rest =>
      if Ascii.eqb c sep then EmptyString :: split sep rest
      else
        match split sep rest with
        | [] => [String c EmptyString]
        | piece :: pieces => String c piece :: pieces
        end
  end.

Fixpoint occurs (c : Ascii.ascii) (s : string) : bool :=
  match s with
  | EmptyString => false
  | String x rest => Ascii.eqb x c || occurs c rest
  end.

Section Path.

(** The builtin [int] on a [str]: the number, or [None] where it raises
    ValueError. *)
Variable int : string -> option Z.

(** [(addr, int(port)) for [addr, port] in (host.split(":"), ...)]: one
    host of the path. *)
Definition addr_port (host : string) : exn + (string * Z) :=
  match split ":"%char host with
  | [addr; port] =>
      match int port with
      | Some n => inr (addr, n)
      | None => inl ValueError
      end
  | _ => inl ValueError
  end.

(** [self.remote, self.local = (... for host in descriptor_path.split("<"))]
    of [UdpCtapHidConnection.__init__]: exactly two hosts, each
    [addr:port]; every other shape raises ValueError, from the unpacking
    or from [int]. *)
Definition remote_local (descriptor_path : string)
  : exn + ((string * Z) * (string * Z)) :=
  match split "<"%char descriptor_path with
  | [h1; h2] =>
      match addr_port h1 with
      | inl e => inl e
      | inr remote =>
          match addr_port h2 with
          | inl e => inl e
          | inr local => inr (remote, local)
          end
      end
  | _ => inl ValueError
  end.

End Path.

End UdpBackend.

(** ** A scripted transport

    A bus that plays back scripts: the answers of the enumerations, of the
    device-to-host transfers and of the host-to-device transfers, in order.
    Devices are numbers and carry their number as serial.  It serves the
    concrete runs below. *)
Module Mock.

Record bus_t : Type := mkBus {
  finds : list (exn + find_result nat);
  receives : list (exn + list Z);
  sends : list (exn + Z)
}.

Definition serial_of (d : nat) : string :=
  NilZero.string_of_uint (Nat.to_uint d).

Definition usb : Backend nat unit unit bus_t := {|
  usb_core_find := fun _ _ b =>
    match finds b with
    | [] => (inr FoundNone, b)
    | r :: rest => (r, mkBus rest (receives b) (sends b))
    end;
  usb_util_get_string := fun d b => (inr (serial_of d), b);
  set_configuration := fun _ b => (inr tt, b);
  configurations := fun _ => [tt];
  interfaces := fun _ => [tt];
  cfg_getitem := fun _ _ alt =>
    if (alt =? 0) || (alt =? 1) then inr tt else inl (USBError None);
  set_interface_altsetting := fun _ _ _ b => (inr tt, b);
  ctrl_transfer_send := fun _ _ _ _ data b =>
    match sends b with
    | [] =>
        (inr (match data with
              | Some l => Z.of_nat (List.length l)
              | None => 0
              end), b)
    | r :: rest => (r, mkBus (finds b) (receives b) rest)
    end;
  ctrl_transfer_receive := fun _ _ _ _ _ b =>
    match receives b with
    | [] => (inl (USBError None), b)
    | r :: rest => (r, mkBus (finds b) rest (sends b))
    end
|}.

Definition state_of_code (c : Z) : option DfuState :=
  match c with
  | 0 => Some APP_IDLE | 1 => Some APP_DETACH | 2 => Some IDLE
  | 3 => Some DOWNLOAD_SYNC | 4 => Some DOWNLOAD_BUSY
  | 5 => Some DOWNLOAD_IDLE | 6 => Some MANIFEST_SYNC | 7 => Some MANIFEST
  | 8 => Some MANIFEST_WAIT_RESET | 9 => Some UPLOAD_IDLE
  | 10 => Some ERROR | _ => None
  end.

(** The six bytes [{status, pollTimeout[3], state, stringIdx}] of a status
    response, the time-out little-endian. *)
Definition decode_status (s : list Z) : exn + DfuStatus :=
  match s with
  | [st; t0; t1; t2; c; _] =>
      match state_of_code c with
      | Some q =>
          inr (mkStatus st (Z.to_N (t0 + Z.shiftl t1 8 + Z.shiftl t2 16)) q)
      | None => inl (OtherError "ValueError")
      end
  | _ => inl (OtherError "IndexError")
  end.

(** Bits 27 and 26 of the option word. *)
Definition cmds : Commands := {|
  DFU_status := decode_status;
  nBOOT0 := Z.shiftl 1 27;
  nSWBOOT0 := Z.shiftl 1 26
|}.

Definition self : DFUDevice nat unit := mkDFU 7%nat 0 tt.

Definition start (b : bus_t) : World nat bus_t := mkWorld b [].

(** A status response reporting state code [c] and time-out [t] (below
    256 ms). *)
Definition reply (c t : Z) : exn + list Z := inr [0; t; 0; 0; c; 0].

Definition stall : exn + list Z := inl (USBError (Some 32)).

(** A bus on which the next status transfers answer [rs]. *)
Definition answering (rs : list (exn + list Z)) : World nat bus_t :=
  start (mkBus [] rs []).

(** Option bytes with nBOOT0 clear (the word is 0xF7FFF8AA) and with
    nBOOT0 set and nSWBOOT0 clear (0xFBFFF8AA). *)
Definition option_bytes_app : list Z :=
  [0xAA; 0xF8; 0xFF; 0xF7; 1; 2; 3; 4; 5; 6; 7; 8; 9; 10; 11; 12].

Definition option_bytes_flash : list Z :=
  [0xAA; 0xF8; 0xFF; 0xFB; 1; 2; 3; 4; 5; 6; 7; 8; 9; 10; 11; 12].

(** A device that never leaves DOWNLOAD_BUSY: every status transfer
    reports it, with a time-out of 7 ms. *)
Definition always_busy : Backend nat unit unit bus_t := {|
  usb_core_find := usb_core_find usb;
  usb_util_get_string := usb_util_get_string usb;
  set_configuration := set_configuration usb;
  configurations := configurations usb;
  interfaces := interfaces usb;
  cfg_getitem := cfg_getitem usb;
  set_interface_altsetting := set_interface_altsetting usb;
  ctrl_transfer_send := ctrl_transfer_send usb;
  ctrl_transfer_receive := fun _ _ _ _ _ b => (reply 4 7, b)
|}.

(** [int] on the strings of decimal digits. *)
Definition digits_int (s : string) : option Z :=
  option_map Z.of_uint (NilZero.uint_of_string s).

End Mock.

(** * Properties *)

(** ** Address translator *)

Example addr2block_0x08004000 : addr2block 0x08004000 2048 = inr 10.
Proof. reflexivity. Qed.

(** C2: [addr2block] and [block2addr] are exact inverses on valid inputs.
    For every transfer size above zero: an address at or above the flash
    base and aligned on the transfer size is mapped to a block that
    [block2addr] maps back to it, and every block number is recovered from
    the address [block2addr] gives it. *)
Theorem addr_block_round_trip :
  forall size : Z,
    0 < size ->
    (forall addr : Z,
        0x08000000 <= addr ->
        (addr - 0x08000000) mod size = 0 ->
        exists block,
          addr2block addr size = inr block
          /\ block2addr block size = addr)
    /\ (forall block : Z,
           addr2block (block2addr block size) size = inr block).
Proof.
  intros size Hsize.
  assert (Hnz : (size =? 0) = false) by (apply Z.eqb_neq; lia).
  split.
  - intros addr _ Hal.
    exists ((addr - 0x08000000) / size + 2).
    unfold addr2block, block2addr. rewrite Hnz. split; [reflexivity|].
    pose proof (Z.div_mod (addr - 0x08000000) size ltac:(lia)) as E.
    rewrite Hal in E. nia.
  - intros block. unfold addr2block, block2addr. rewrite Hnz.
    f_equal.
    replace ((block - 2) * size + 0x08000000 - 0x08000000)
      with ((block - 2) * size) by lia.
    rewrite Z.div_mul by lia. lia.
Qed.

Lemma addr_block_round_trip_witness :
  0 < 2048
  /\ (exists block,
         addr2block 0x08004000 2048 = inr block
         /\ block2addr block 2048 = 0x08004000)
  /\ addr2block (block2addr 10 2048) 2048 = inr 10.
Proof.
  assert (H : 0 < 2048) by reflexivity.
  split; [exact H|].
  destruct (addr_block_round_trip 2048 H) as [Hab Hba].
  split.
  - apply Hab; [discriminate | reflexivity].
  - apply Hba.
Defined.

(** ** Little-endian words *)

Lemma bits_above_32 a i :
  0 <= a < 2 ^ 32 -> 32 <= i -> Z.testbit a i = false.
Proof.
  intros Ha Hi. rewrite <- (Z.mod_small a (2 ^ 32)) by exact Ha.
  apply Z.mod_pow2_bits_high. lia.
Qed.

Lemma lor_land_lnot_range a b c :
  0 <= a < 2 ^ 32 -> 0 <= b < 2 ^ 32 ->
  0 <= Z.land (Z.lor a b) (Z.lnot c) < 2 ^ 32.
Proof.
  intros Ha Hb.
  assert (E : Z.land (Z.lor a b) (Z.lnot c)
              = Z.land (Z.lor a b) (Z.lnot c) mod 2 ^ 32).
  { apply Z.bits_inj'. intros i Hi.
    destruct (Z.lt_ge_cases i 32) as [Hlt|Hge].
    - rewrite Z.mod_pow2_bits_low by lia. reflexivity.
    - rewrite Z.mod_pow2_bits_high by lia.
      rewrite Z.land_spec, Z.lor_spec.
      rewrite (bits_above_32 a i Ha Hge), (bits_above_32 b i Hb Hge).
      reflexivity. }
  rewrite E. apply Z.mod_pos_bound. lia.
Qed.

Lemma unpack_L_range b0 b1 b2 b3 :
  0 <= b0 < 256 -> 0 <= b1 < 256 -> 0 <= b2 < 256 -> 0 <= b3 < 256 ->
  exists op, unpack_L [b0; b1; b2; b3] = inr op /\ 0 <= op < 2 ^ 32.
Proof.
  intros H0 H1 H2 H3. eexists. split; [reflexivity|].
  rewrite !Z.shiftl_mul_pow2 by lia.
  change (2 ^ 8) with 256. change (2 ^ 16) with 65536.
  change (2 ^ 24) with 16777216. change (2 ^ 32) with 4294967296. lia.
Qed.

(** [struct.unpack] gives back what [struct.pack] was given. *)
Lemma unpack_pack_L v :
  0 <= v < 2 ^ 32 ->
  pack_L v = inr (addr2list v) /\ unpack_L (addr2list v) = inr v.
Proof.
  intros Hv. split.
  - unfold pack_L.
    destruct (Z.leb_spec 0 v); [|lia].
    destruct (Z.ltb_spec v (2 ^ 32)); [reflexivity|lia].
  - unfold addr2list, unpack_L. f_equal.
    change 0xFF with (Z.ones 8). rewrite !Z.land_ones by lia.
    rewrite !Z.shiftl_mul_pow2, !Z.shiftr_div_pow2 by lia.
    change (2 ^ 8) with 256. change (2 ^ 16) with 65536.
    change (2 ^ 24) with 16777216. change (2 ^ 32) with 4294967296 in Hv.
    Z.div_mod_to_equations. lia.
Qed.

(** ** The driver monad *)

Lemma bind_Ok {W A B} (m : M W A) (k : A -> M W B) w a w' :
  m w = (Ok a, w') -> bind m k w = k a w'.
Proof. intros E. unfold bind. rewrite E. reflexivity. Qed.

Lemma bind_Raise {W A B} (m : M W A) (k : A -> M W B) w e w' :
  m w = (Raise e, w') -> bind m k w = (Raise e, w').
Proof. intros E. unfold bind. rewrite E. reflexivity. Qed.

Lemma bind_ret_l {W A B} (a : A) (k : A -> M W B) w :
  bind (ret a) k w = k a w.
Proof. reflexivity. Qed.

Section DriverFacts.

Context {Dev Cfg Intf D : Type}.
Variable usb : Backend Dev Cfg Intf D.
Variable cmds : Commands.

Let world : Type := World Dev D.
Let self_t : Type := DFUDevice Dev Intf.

(** *** Status queries *)

Lemma ctrl_receive_eq (x : Dev) req v i n (d : D) tr :
  ctrl_receive usb x req v i n (mkWorld d tr)
  = let '(r, d') := ctrl_transfer_receive usb x req v i n d in
    (match r with inl e => Raise e | inr a => Ok a end,
     mkWorld d' (tr ++ [EvReceive x req v i n])).
Proof.
  unfold ctrl_receive, call. simpl.
  destruct (ctrl_transfer_receive usb x req v i n d) as [[e|a] d'];
    reflexivity.
Qed.

Lemma is_EPIPE_USBError e :
  is_EPIPE e = true -> exists n, e = USBError n.
Proof. destruct e; try discriminate. eauto. Qed.

(** The loop of [get_status] after [k] stalls, with enough tries left. *)
Lemma get_status_loop_stalls (self : self_t) :
  forall k tries d d1 tr,
    stalls usb self k d d1 ->
    get_status_loop usb self (k + tries) (mkWorld d tr)
    = get_status_loop usb self tries
        (mkWorld d1 (tr ++ retry_events self k)).
Proof.
  induction k as [|k IH]; intros tries d d1 tr H; simpl in H.
  - subst d1. unfold retry_events. simpl. rewrite app_nil_r. reflexivity.
  - destruct H as (e & d2 & Hrecv & Hpipe & Hrest).
    change (S k + tries)%nat with (S (k + tries)).
    cbn [get_status_loop]. rewrite ctrl_receive_eq, Hrecv. cbn iota beta.
    destruct (is_EPIPE_USBError e Hpipe) as [n ->]. rewrite Hpipe.
    unfold bind, sleep. cbn [bus trace].
    rewrite (IH tries d2 d1 _ Hrest).
    unfold retry_events. cbn [repeat List.concat].
    rewrite <- !app_assoc. reflexivity.
Qed.

(** The last turn of the loop: the transfer that is not retried. *)
Lemma get_status_loop_last (self : self_t) tries d tr r d' :
  ctrl_transfer_receive usb (dev self) GETSTATUS 0 (intNum self) 6 d
    = (r, d') ->
  (forall e, r = inl e -> is_EPIPE e = true -> tries = O) ->
  bind (get_status_loop usb self tries) (fun s => lift (DFU_status cmds s))
       (mkWorld d tr)
  = (status_outcome cmds r, mkWorld d' (tr ++ [ev_getstatus self])).
Proof.
  intros Hrecv Hlast. unfold bind.
  destruct tries as [|tries]; cbn [get_status_loop];
    rewrite ctrl_receive_eq, Hrecv; cbn iota beta;
    destruct r as [e|raw]; cbn [status_outcome].
  - destruct e; try reflexivity.
    destruct (is_EPIPE (USBError errno)); reflexivity.
  - unfold lift. destruct (DFU_status cmds raw); reflexivity.
  - destruct e; try reflexivity.
    destruct (is_EPIPE (USBError errno)) eqn:E; [|reflexivity].
    specialize (Hlast _ eq_refl E). discriminate.
  - unfold lift. destruct (DFU_status cmds raw); reflexivity.
Qed.

Lemma get_status_after_stalls (self : self_t) k d d1 tr r d2 :
  stalls usb self k d d1 ->
  (k <= 3)%nat ->
  ctrl_transfer_receive usb (dev self) GETSTATUS 0 (intNum self) 6 d1
    = (r, d2) ->
  (forall e, r = inl e -> is_EPIPE e = true -> k = 3%nat) ->
  get_status usb cmds self (mkWorld d tr)
  = (status_outcome cmds r,
     mkWorld d2 (tr ++ retry_events self k ++ [ev_getstatus self])).
Proof.
  intros Hst Hk Hrecv Hlast.
  unfold get_status, bind.
  replace 3%nat with (k + (3 - k))%nat at 1 by lia.
  rewrite (get_status_loop_stalls self k (3 - k) d d1 tr Hst).
  pose proof (get_status_loop_last self (3 - k) d1
                (tr ++ retry_events self k) r d2 Hrecv) as L.
  unfold bind in L. rewrite L.
  - rewrite <- app_assoc. reflexivity.
  - intros e He Hp. specialize (Hlast e He Hp). lia.
Qed.

(** C6: [get_status] retries the status transfer on the stall error
    (USBError with errno EPIPE) and on nothing else, at most 3 times and
    with a sleep of 10 ms before each retry.  Whatever the bus does, a run
    of [get_status] is [k <= 3] stalled transfers, each followed by the
    10 ms sleep, and one last transfer that decides the outcome: its
    decoded status when it succeeds, its own error, raised at once, when
    it fails with anything but the stall, and the RuntimeError
    "Failed to get status from DFU." when it is a stall again, which only
    happens when the 3 retries are used up. *)
Theorem get_status_retries_stall_only :
  forall (self : self_t) (d : D) (tr : list (event Dev)),
  exists (k : nat) (d1 : D) (r : exn + list Z) (d2 : D),
    (k <= 3)%nat
    /\ stalls usb self k d d1
    /\ ctrl_transfer_receive usb (dev self) GETSTATUS 0 (intNum self) 6 d1
       = (r, d2)
    /\ (forall e, r = inl e -> is_EPIPE e = true -> k = 3%nat)
    /\ get_status usb cmds self (mkWorld d tr)
       = (status_outcome cmds r,
          mkWorld d2 (tr ++ retry_events self k ++ [ev_getstatus self])).
Proof.
  intros self d tr.
  assert (Hgen :
    forall n k d1, (k + n = 3)%nat -> stalls usb self k d d1 ->
      exists (k' : nat) (d1' : D) (r : exn + list Z) (d2 : D),
        (k' <= 3)%nat
        /\ stalls usb self k' d d1'
        /\ ctrl_transfer_receive usb (dev self) GETSTATUS 0 (intNum self) 6
             d1' = (r, d2)
        /\ (forall e, r = inl e -> is_EPIPE e = true -> k' = 3%nat)).
  { assert (Hsnoc : forall k a b c e,
              stalls usb self k a b ->
              ctrl_transfer_receive usb (dev self) GETSTATUS 0
                (intNum self) 6 b = (inl e, c) ->
              is_EPIPE e = true -> stalls usb self (S k) a c).
    { induction k as [|k IH]; intros a b c e Hs Hr Hp; simpl in Hs.
      - subst b. simpl. exists e, c. auto.
      - destruct Hs as (e' & a' & Hr' & Hp' & Hs').
        cbn [stalls]. exists e', a'. split; [exact Hr'|].
        split; [exact Hp'|]. exact (IH a' b c e Hs' Hr Hp). }
    induction n as [|n IH]; intros k d1 Hk Hs.
    - destruct (ctrl_transfer_receive usb (dev self) GETSTATUS 0
                  (intNum self) 6 d1) as [r d2] eqn:Hr.
      exists k, d1, r, d2. repeat split; try assumption; lia.
    - destruct (ctrl_transfer_receive usb (dev self) GETSTATUS 0
                  (intNum self) 6 d1) as [r d2] eqn:Hr.
      destruct r as [e|raw].
      + destruct (is_EPIPE e) eqn:Hp.
        * apply (IH (S k) d2); [lia|]. exact (Hsnoc k d d1 d2 e Hs Hr Hp).
        * exists k, d1, (inl e), d2. repeat split; try assumption; try lia.
          intros e' He' Hp'. inversion He'; subst. congruence.
      + exists k, d1, (inr raw), d2.
        repeat split; try assumption; try lia.
        intros e' He'. discriminate. }
  destruct (Hgen 3%nat 0%nat d eq_refl eq_refl)
    as (k & d1 & r & d2 & Hk & Hs & Hr & Hl).
  exists k, d1, r, d2. repeat split; try assumption.
  exact (get_status_after_stalls self k d d1 tr r d2 Hs Hk Hr Hl).
Qed.

(** *** Polling *)

Lemma DfuState_eqb_eq a b : DfuState_eqb a b = true <-> a = b.
Proof. destruct a, b; simpl; split; intros H; congruence. Qed.

Lemma DfuState_eqb_neq a b : DfuState_eqb a b = false <-> a <> b.
Proof.
  rewrite <- DfuState_eqb_eq. destruct (DfuState_eqb a b); split; congruence.
Qed.

(** One status query answered at the first transfer. *)
Lemma get_status_answered (self : self_t) d tr raw d1 s :
  ctrl_transfer_receive usb (dev self) GETSTATUS 0 (intNum self) 6 d
    = (inr raw, d1) ->
  DFU_status cmds raw = inr s ->
  get_status usb cmds self (mkWorld d tr)
  = (Ok s, mkWorld d1 (tr ++ [ev_getstatus self])).
Proof.
  intros Hr Hs.
  rewrite (get_status_after_stalls self 0 d d tr (inr raw) d1 eq_refl
             ltac:(lia) Hr ltac:(discriminate)).
  cbn [status_outcome]. rewrite Hs. reflexivity.
Qed.

(** A poll that finds the awaited state sleeps the reported time-out and
    polls again. *)
Lemma block_on_state_busy fuel (self : self_t) st w s w1 :
  get_status usb cmds self w = (Ok s, w1) ->
  state_of s = st ->
  block_on_state usb cmds (S fuel) self st w
  = block_on_state usb cmds fuel self st
      (mkWorld (bus w1) (trace w1 ++ [EvSleep (timeout s)])).
Proof.
  intros Hg Hs. unfold block_on_state at 1.
  rewrite (bind_Ok _ _ _ _ _ Hg). cbn [block_on_state_loop].
  apply DfuState_eqb_eq in Hs. rewrite Hs. reflexivity.
Qed.

(** A poll that finds any other state ends the wait. *)
Lemma block_on_state_done fuel (self : self_t) st w s w1 :
  get_status usb cmds self w = (Ok s, w1) ->
  state_of s <> st ->
  block_on_state usb cmds fuel self st w = (Ok tt, w1).
Proof.
  intros Hg Hs. unfold block_on_state.
  rewrite (bind_Ok _ _ _ _ _ Hg).
  apply DfuState_eqb_neq in Hs.
  destruct fuel; cbn [block_on_state_loop]; rewrite Hs; reflexivity.
Qed.

(** C5: [block_on_state] returns as soon as a status query reports a state
    other than the awaited one, and sleeps the reported time-out between
    two queries.  When the status responses of the transport are [busy],
    all in the awaited state [st], and then [last], in another state, the
    call returns with the bus as the query of [last] left it, and what it
    did is exactly: for each response of [busy] one status transfer and a
    sleep of that response's time-out, then the one status transfer
    answered by [last].  For [busy] of length 2 these are 3 status queries
    and 2 sleeps. *)
Theorem block_on_state_returns_at_first_other_state :
  forall (self : self_t) (st : DfuState) (busy : list DfuStatus)
         (last : DfuStatus) (d d' : D) (tr : list (event Dev)) (fuel : nat),
    Forall (fun s => state_of s = st) busy ->
    state_of last <> st ->
    answers usb cmds self (busy ++ [last]) d d' ->
    (List.length busy <= fuel)%nat ->
    block_on_state usb cmds fuel self st (mkWorld d tr)
    = (Ok tt,
       mkWorld d' (tr ++ poll_events self busy ++ [ev_getstatus self])).
Proof.
  intros self st busy last.
  induction busy as [|s busy IH]; intros d d' tr fuel Hbusy Hlast Hans Hfuel.
  - simpl in Hans. destruct Hans as (raw & d1 & Hr & Hs & E). subst d'.
    apply (block_on_state_done fuel self st _ last).
    + exact (get_status_answered self d tr raw d1 last Hr Hs).
    + exact Hlast.
  - simpl in Hans. destruct Hans as (raw & d1 & Hr & Hs & Hrest).
    inversion Hbusy as [|? ? Hst Hbusy']; subst.
    destruct fuel as [|fuel]; [simpl in Hfuel; lia|].
    rewrite (block_on_state_busy fuel self (state_of s) _ s _
               (get_status_answered self d tr raw d1 s Hr Hs) eq_refl).
    cbn [bus trace].
    rewrite (IH d1 d' _ fuel Hbusy' Hlast Hrest ltac:(simpl in Hfuel; lia)).
    cbn [poll_events flat_map]. rewrite <- !app_assoc. reflexivity.
Qed.

(** *** What an operation adds to the trace *)

Lemma emits_ret {A} (P : event Dev -> Prop) (a : A) :
  emits P (ret a : M world A).
Proof. intros w. exists []. simpl. rewrite app_nil_r. auto. Qed.

Lemma emits_raise {A} (P : event Dev -> Prop) (e : exn) :
  emits P (raise e : M world A).
Proof. intros w. exists []. simpl. rewrite app_nil_r. auto. Qed.

Lemma emits_lift {A} (P : event Dev -> Prop) (r : exn + A) :
  emits P (lift r : M world A).
Proof. destruct r; [apply emits_raise | apply emits_ret]. Qed.

Lemma emits_call {A} (P : event Dev -> Prop) ev (h : D -> (exn + A) * D) :
  P ev -> emits P (call ev h).
Proof.
  intros HP w. exists [ev]. unfold call.
  destruct (h (bus w)) as [[e|a] d]; simpl; auto.
Qed.

Lemma emits_sleep (P : event Dev -> Prop) ms :
  P (EvSleep ms) -> emits P (sleep ms : M world unit).
Proof. intros HP w. exists [EvSleep ms]. simpl. auto. Qed.

Lemma emits_print (P : event Dev -> Prop) msg :
  P (EvPrint msg) -> emits P (print msg : M world unit).
Proof. intros HP w. exists [EvPrint msg]. simpl. auto. Qed.

Lemma emits_bind {A B} (P : event Dev -> Prop) (m : M world A)
  (k : A -> M world B) :
  emits P m -> (forall a, emits P (k a)) -> emits P (bind m k).
Proof.
  intros Hm Hk w. unfold bind.
  destruct (Hm w) as (e1 & E1 & F1).
  destruct (m w) as [[a|e|] w1]; simpl in E1.
  - destruct (Hk a w1) as (e2 & E2 & F2).
    exists (e1 ++ e2). rewrite E2, E1, app_assoc. split; [reflexivity|].
    apply Forall_app; auto.
  - exists e1. simpl. auto.
  - exists e1. simpl. auto.
Qed.

Lemma emits_try_except {A} (P : event Dev -> Prop) (m h : M world A) c :
  emits P m -> emits P h -> emits P (try_except m c h).
Proof.
  intros Hm Hh w. unfold try_except.
  destruct (Hm w) as (e1 & E1 & F1).
  destruct (m w) as [[a|x|] w1]; simpl in E1.
  - exists e1. simpl. auto.
  - destruct (c x).
    + destruct (Hh w1) as (e2 & E2 & F2).
      exists (e1 ++ e2). rewrite E2, E1, app_assoc. split; [reflexivity|].
      apply Forall_app; auto.
    + exists e1. simpl. auto.
  - exists e1. simpl. auto.
Qed.

Lemma emits_weaken {A} (P Q : event Dev -> Prop) (m : M world A) :
  (forall ev, P ev -> Q ev) -> emits P m -> emits Q m.
Proof.
  intros HPQ Hm w. destruct (Hm w) as (evs & E & F).
  exists evs. split; [exact E|]. eapply Forall_impl; eauto.
Qed.

(** The events of a run that is known. *)
Lemma emits_run {A} (P : event Dev -> Prop) (m : M world A) w r w' :
  emits P m -> m w = (r, w') ->
  exists evs, trace w' = trace w ++ evs /\ Forall P evs.
Proof. intros Hm E. specialize (Hm w). rewrite E in Hm. exact Hm. Qed.

Lemma emits_ctrl_receive (P : event Dev -> Prop) x req v i n :
  P (EvReceive x req v i n) -> emits P (ctrl_receive usb x req v i n).
Proof. intros HP. unfold ctrl_receive. apply emits_call. exact HP. Qed.

Lemma emits_ctrl_send (P : event Dev -> Prop) x req v i data :
  P (EvSend x req v i data) -> emits P (ctrl_send usb x req v i data).
Proof. intros HP. unfold ctrl_send. apply emits_call. exact HP. Qed.

Lemma emits_get_status_loop (self : self_t) tries :
  emits status_event (get_status_loop usb self tries).
Proof.
  induction tries as [|tries IH]; intros w; cbn [get_status_loop];
    destruct (emits_ctrl_receive status_event (dev self) GETSTATUS 0
                (intNum self) 6 I w) as (evs & E & F);
    destruct (ctrl_receive usb (dev self) GETSTATUS 0 (intNum self) 6 w)
      as [[a|e|] w1]; simpl in E; try solve [exists evs; simpl; auto];
    destruct e; try solve [exists evs; simpl; auto];
    destruct (is_EPIPE (USBError errno));
    try solve [exists evs; simpl; auto].
  destruct (emits_bind status_event (sleep 10)
              (fun _ => get_status_loop usb self tries)
              (emits_sleep status_event 10 I) (fun _ => IH) w1)
    as (e2 & E2 & F2).
  exists (evs ++ e2). split; [|apply Forall_app; auto].
  etransitivity; [exact E2|]. rewrite E, app_assoc. reflexivity.
Qed.

Lemma emits_get_status (self : self_t) :
  emits status_event (get_status usb cmds self).
Proof.
  unfold get_status. apply emits_bind.
  - apply emits_get_status_loop.
  - intros a. apply emits_lift.
Qed.

Lemma emits_state (self : self_t) :
  emits status_event (state usb cmds self).
Proof.
  unfold state. apply emits_bind.
  - apply emits_get_status.
  - intros a. apply emits_ret.
Qed.

Lemma clear_status_trace (self : self_t) w r w' :
  clear_status usb self w = (r, w') ->
  trace w' = trace w ++ [ev_clrstatus self].
Proof.
  unfold clear_status, bind, ctrl_send, call.
  destruct (ctrl_transfer_send usb (dev self) CLRSTATUS 0 (intNum self) None
              (bus w)) as [[e|a] d]; intros E; inversion E; reflexivity.
Qed.

(** *** The state precondition *)

(** The check fails after two clears that did not help. *)
Lemma check_state_fails (self : self_t) valid msg w s1 w1 w2 w3 s2 w4 :
  state usb cmds self w = (Ok s1, w1) ->
  not_in s1 valid = true ->
  clear_status usb self w1 = (Ok tt, w2) ->
  clear_status usb self w2 = (Ok tt, w3) ->
  state usb cmds self w3 = (Ok s2, w4) ->
  not_in s2 valid = true ->
  check_state usb cmds self valid msg w = (Raise (RuntimeError msg), w4).
Proof.
  intros H1 V1 C1 C2 H2 V2. unfold check_state.
  rewrite (bind_Ok _ _ _ _ _ H1). rewrite V1.
  erewrite bind_Ok.
  2:{ erewrite bind_Ok; [exact C2 | exact C1]. }
  rewrite (bind_Ok _ _ _ _ _ H2). rewrite V2. reflexivity.
Qed.

(** C3: [write_page], [read_mem] and [detach] open with the same check.
    When the state queried first is not valid for the operation ([ERROR]
    never is), [clear_status] is issued twice; when the state queried
    after the two clears is still not valid, the operation raises the
    RuntimeError of its state precondition.  Up to that point the driver
    has issued status queries and the two CLRSTATUS transfers only: no
    download and no upload transfer.  ([read_mem] computes its block
    number before the check, so a size of zero raises before any query.) *)
Theorem state_precondition_pattern :
  forall (fuel : nat) (self : self_t) (addr : Z) (data : list Z)
         (raddr size : Z)
         (w w1 w2 w3 w4 : world) (s1 s2 : DfuState),
    state usb cmds self w = (Ok s1, w1) ->
    clear_status usb self w1 = (Ok tt, w2) ->
    clear_status usb self w2 = (Ok tt, w3) ->
    state usb cmds self w3 = (Ok s2, w4) ->
    size <> 0 ->
    (exists q1 q2,
        trace w4
        = trace w ++ q1 ++ [ev_clrstatus self; ev_clrstatus self] ++ q2
        /\ Forall status_event q1 /\ Forall status_event q2
        /\ Forall no_transfer
             (q1 ++ [ev_clrstatus self; ev_clrstatus self] ++ q2))
    /\ (not_in s1 [IDLE; DOWNLOAD_IDLE] = true ->
        not_in s2 [IDLE; DOWNLOAD_IDLE] = true ->
        write_page usb cmds fuel self addr data w
        = (Raise (RuntimeError
                    "DFU device not in correct state for writing memory."),
           w4)
        /\ detach usb cmds self w
           = (Raise (RuntimeError
                       "DFU device not in correct state for detaching."),
              w4))
    /\ (not_in s1 [IDLE; UPLOAD_IDLE] = true ->
        not_in s2 [IDLE; UPLOAD_IDLE] = true ->
        read_mem usb cmds self raddr size w
        = (Raise (RuntimeError
                    "DFU device not in correct state for reading memory."),
           w4)).
Proof.
  intros fuel self addr data raddr size w w1 w2 w3 w4 s1 s2
         H1 C1 C2 H2 Hsize.
  split; [|split].
  - destruct (emits_run _ _ _ _ _ (emits_state self) H1) as (q1 & E1 & F1).
    destruct (emits_run _ _ _ _ _ (emits_state self) H2) as (q2 & E2 & F2).
    exists q1, q2.
    rewrite E2, (clear_status_trace _ _ _ _ C2),
      (clear_status_trace _ _ _ _ C1), E1.
    rewrite <- !app_assoc. repeat split; try assumption.
    assert (Hst : forall ev : event Dev, status_event ev -> no_transfer ev).
    { intros ev. destruct ev; simpl; try tauto; destruct req; tauto. }
    apply Forall_app. split; [eapply Forall_impl; eauto|].
    apply Forall_app. split; [repeat constructor|eapply Forall_impl; eauto].
  - intros V1 V2. split.
    + unfold write_page. eapply bind_Raise.
      eapply check_state_fails; eauto.
    + unfold detach. eapply bind_Raise.
      eapply check_state_fails; eauto.
  - intros V1 V2. unfold read_mem, addr2block.
    destruct (Z.eqb_spec size 0) as [|_]; [contradiction|].
    cbn [lift]. unfold bind at 1. cbn [ret].
    eapply bind_Raise. eapply check_state_fails; eauto.
Qed.

(** *** Erase and write *)

Lemma assert_download_idle_fails (self : self_t) w s w' :
  state usb cmds self w = (Ok s, w') ->
  s <> DOWNLOAD_IDLE ->
  assert_download_idle usb cmds self w = (Raise AssertionError, w').
Proof.
  intros Hs Hne. unfold assert_download_idle.
  rewrite (bind_Ok _ _ _ _ _ Hs).
  assert (E : DfuState_eqb DOWNLOAD_IDLE s = false)
    by (apply DfuState_eqb_neq; congruence).
  rewrite E. reflexivity.
Qed.

(** C4: [write_page] and [mass_erase] do not return when the status
    queried after [block_on_state(DOWNLOAD_BUSY)] is not [DOWNLOAD_IDLE]:
    once the download transfer went through and the wait returned, a
    query that reports any other state ([ERROR] for one) makes the
    operation raise AssertionError, the assertion of its postcondition. *)
Theorem write_and_erase_assert_download_idle :
  forall (fuel : nat) (self : self_t) (w1 w2 w3 : world) (s : DfuState),
    block_on_state usb cmds fuel self DOWNLOAD_BUSY w1 = (Ok tt, w2) ->
    state usb cmds self w2 = (Ok s, w3) ->
    s <> DOWNLOAD_IDLE ->
    (forall (w : world) (n : Z),
        dnload usb self 0 [0x41] w = (Ok n, w1) ->
        mass_erase usb cmds fuel self w = (Raise AssertionError, w3))
    /\ (forall (w w0 : world) (addr block n : Z) (data : list Z),
           check_state usb cmds self [IDLE; DOWNLOAD_IDLE]
             "DFU device not in correct state for writing memory." w
           = (Ok tt, w0) ->
           addr2block addr (Z.of_nat (List.length data)) = inr block ->
           dnload usb self block data w0 = (Ok n, w1) ->
           write_page usb cmds fuel self addr data w
           = (Raise AssertionError, w3)).
Proof.
  intros fuel self w1 w2 w3 s Hblock Hstate Hne.
  pose proof (assert_download_idle_fails self w2 s w3 Hstate Hne) as Hassert.
  split.
  - intros w n Hd. unfold mass_erase.
    rewrite (bind_Ok _ _ _ _ _ Hd), (bind_Ok _ _ _ _ _ Hblock).
    exact Hassert.
  - intros w w0 addr block n data Hcheck Hb Hd. unfold write_page.
    rewrite (bind_Ok _ _ _ _ _ Hcheck), Hb. cbn [lift].
    unfold bind at 1. cbn [ret].
    rewrite (bind_Ok _ _ _ _ _ Hd), (bind_Ok _ _ _ _ _ Hblock).
    exact Hassert.
Qed.

(** C1, as the code has it: [erase] is the one download transfer of block
    0 with payload [0x41] and the little-endian address, and returns what
    that transfer returns.  It queries no status, waits for nothing and
    asserts nothing. *)
Theorem erase_is_one_download :
  forall (self : self_t) (a : Z) (w : world),
    erase usb self a w = dnload usb self 0 ([0x41] ++ addr2list a) w
    /\ trace (snd (erase usb self a w))
       = trace w
         ++ [EvSend (dev self) DNLOAD 0 (intNum self)
               (Some ([0x41] ++ addr2list a))].
Proof.
  intros self a w. split; [reflexivity|].
  unfold erase, dnload, ctrl_send, call. cbn [addr2list app].
  destruct (ctrl_transfer_send usb (dev self) DNLOAD 0 (intNum self) _
              (bus w)) as [[e|n] d]; reflexivity.
Qed.

(** *** Option bytes *)

Lemma read_mem_checked (self : self_t) addr size block w w' :
  addr2block addr size = inr block ->
  check_state usb cmds self [IDLE; UPLOAD_IDLE]
    "DFU device not in correct state for reading memory." w = (Ok tt, w') ->
  read_mem usb cmds self addr size w = upload usb self block size w'.
Proof.
  intros Hb Hc. unfold read_mem. rewrite Hb. cbn [lift].
  unfold bind at 1. cbn [ret]. rewrite (bind_Ok _ _ _ _ _ Hc). reflexivity.
Qed.

Lemma write_page_checked fuel (self : self_t) addr data block w w' :
  addr2block addr (Z.of_nat (List.length data)) = inr block ->
  check_state usb cmds self [IDLE; DOWNLOAD_IDLE]
    "DFU device not in correct state for writing memory." w = (Ok tt, w') ->
  write_page usb cmds fuel self addr data w
  = (dnload usb self block data ;;
     block_on_state usb cmds fuel self DOWNLOAD_BUSY ;;
     assert_download_idle usb cmds self) w'.
Proof.
  intros Hb Hc. unfold write_page.
  rewrite (bind_Ok _ _ _ _ _ Hc), Hb. reflexivity.
Qed.

Lemma bind_ret_r {A} (m : M world A) w : bind m (fun a => ret a) w = m w.
Proof. unfold bind, ret. destruct (m w) as [[a|e|] w']; reflexivity. Qed.

(** C10: [read_option_bytes] and [write_option_bytes] call [read_mem] and
    [write_page] with address 0, which lies below the flash base, outside
    what [addr2block] asks for; the block number is then
    (0 - 0x08000000) // 16 + 2 = -8388606, and this negative number is the
    block of the upload transfer of [read_option_bytes] and of the download
    transfer of [write_option_bytes] for 16 bytes. *)
Theorem option_bytes_use_block_below_zero :
  ~ (FLASH_BASE <= 0)
  /\ addr2block 0 16 = inr (-8388606)
  /\ -8388606 < 0
  /\ (forall (fuel : nat) (self : self_t) (w w1 w2 w3 : world) (n : Z),
         set_addr usb self 0x1FFF7800 w = (Ok n, w1) ->
         block_on_state usb cmds fuel self DOWNLOAD_BUSY w1 = (Ok tt, w2) ->
         check_state usb cmds self [IDLE; UPLOAD_IDLE]
           "DFU device not in correct state for reading memory." w2
         = (Ok tt, w3) ->
         read_option_bytes usb cmds fuel self w
         = upload usb self (-8388606) 16 w3
         /\ trace (snd (read_option_bytes usb cmds fuel self w))
            = trace w3
              ++ [EvReceive (dev self) UPLOAD (-8388606) (intNum self) 16])
  /\ (forall (fuel : nat) (self : self_t) (m : list Z) (w w1 w2 : world),
         List.length m = 16%nat ->
         block_on_state usb cmds fuel self DOWNLOAD_BUSY w = (Ok tt, w1) ->
         check_state usb cmds self [IDLE; DOWNLOAD_IDLE]
           "DFU device not in correct state for writing memory." w1
         = (Ok tt, w2) ->
         write_option_bytes usb cmds fuel self m w
         = try_except
             ((dnload usb self (-8388606) m ;;
               block_on_state usb cmds fuel self DOWNLOAD_BUSY ;;
               assert_download_idle usb cmds self) ;;
              block_on_state usb cmds fuel self DOWNLOAD_BUSY)
             is_OSError (print "Warning: OSError with write_page") w2
         /\ trace (snd (dnload usb self (-8388606) m w2))
            = trace w2
              ++ [EvSend (dev self) DNLOAD (-8388606) (intNum self)
                    (Some m)]).
Proof.
  split; [unfold FLASH_BASE; lia|].
  split; [reflexivity|]. split; [lia|]. split.
  - intros fuel self w w1 w2 w3 n Hs Hb Hc.
    assert (E : read_option_bytes usb cmds fuel self w
                = upload usb self (-8388606) 16 w3).
    { unfold read_option_bytes.
      rewrite (bind_Ok _ _ _ _ _ Hs), (bind_Ok _ _ _ _ _ Hb).
      rewrite bind_ret_r.
      exact (read_mem_checked self 0 16 (-8388606) w2 w3 eq_refl Hc). }
    split; [exact E|]. rewrite E.
    unfold upload, ctrl_receive, call.
    destruct (ctrl_transfer_receive usb (dev self) UPLOAD (-8388606)
                (intNum self) 16 (bus w3)) as [[e|a] d]; reflexivity.
  - intros fuel self m w w1 w2 Hlen Hb Hc. split.
    + unfold write_option_bytes. rewrite (bind_Ok _ _ _ _ _ Hb).
      unfold try_except.
      assert (Hw : write_page usb cmds fuel self 0 m w1
                   = (dnload usb self (-8388606) m ;;
                      block_on_state usb cmds fuel self DOWNLOAD_BUSY ;;
                      assert_download_idle usb cmds self) w2).
      { apply write_page_checked; [rewrite Hlen; reflexivity | exact Hc]. }
      unfold bind at 1. rewrite Hw. reflexivity.
    + unfold dnload, ctrl_send, call.
      destruct (ctrl_transfer_send usb (dev self) DNLOAD (-8388606)
                  (intNum self) (Some m) (bus w2)) as [[e|a] d];
        reflexivity.
Qed.

Lemma boot_word_bits op i :
  0 <= i ->
  Z.testbit (boot_word cmds op) i
  = (Z.testbit op i || Z.testbit (nBOOT0 cmds) i)
    && negb (Z.testbit (nSWBOOT0 cmds) i).
Proof.
  intros Hi. unfold boot_word.
  rewrite Z.land_spec, Z.lor_spec, Z.lnot_spec by exact Hi. reflexivity.
Qed.


(** *** Discovery *)

Lemma usb_find_eq (d : D) tr :
  (call (EvFind 0x0483 0xDF11) (usb_core_find usb 0x0483 0xDF11)
        (mkWorld d tr) : outcome (find_result Dev) * World Dev D)
  = let '(r, d') := usb_core_find usb 0x0483 0xDF11 d in
    (match r return outcome (find_result Dev) with
     | inl e => Raise e
     | inr a => Ok a
     end,
     mkWorld d' (tr ++ [EvFind 0x0483 0xDF11])).
Proof.
  unfold call. simpl.
  destruct (usb_core_find usb 0x0483 0xDF11 d) as [[e|a] d']; reflexivity.
Qed.

(** C7: when the enumeration, with no serial asked for, yields more than
    one device, [find] raises NonUniqueDeviceError out of its first
    attempt: the trace gains that one enumeration and nothing else, no
    sleep and no second enumeration. *)
Theorem find_fails_at_once_when_not_unique :
  forall (attempts altsetting : Z) (l : list Dev) (d d' : D)
         (tr : list (event Dev)),
    0 < attempts ->
    usb_core_find usb 0x0483 0xDF11 d = (inr (FoundMany l), d') ->
    (1 < List.length l)%nat ->
    find usb None attempts None altsetting (mkWorld d tr)
    = (Raise NonUniqueDeviceError,
       mkWorld d' (tr ++ [EvFind 0x0483 0xDF11])).
Proof.
  intros attempts altsetting l d d' tr Hatt Hfind Hlen.
  unfold find.
  destruct (Z.to_nat attempts) as [|n] eqn:En; [lia|].
  cbn [find_loop]. unfold DFUDevice_find, select_device.
  unfold bind at 1. unfold bind at 1.
  rewrite usb_find_eq, Hfind. cbn iota beta.
  unfold bind at 1. cbn [ret].
  destruct (Z.ltb_spec 1 (Z.of_nat (List.length l))) as [_|Hge]; [|lia].
  reflexivity.
Qed.

Lemma eligible_none (ser : string) :
  forall (devs : list Dev) (d d' : D) tr,
    none_has_serial usb ser devs d d' ->
    exists evs,
      eligible_by_serial usb ser devs (mkWorld d tr)
      = (Ok [], mkWorld d' (tr ++ evs))
      /\ filter is_find_or_sleep evs = [].
Proof.
  induction devs as [|x devs IH]; intros d d' tr H; simpl in H.
  - subst d'. exists []. rewrite app_nil_r. split; reflexivity.
  - destruct H as (s0 & d1 & Hs & Hne & Hrest).
    destruct (IH d1 d' (tr ++ [EvGetString x]) Hrest) as (evs & E & F).
    exists (EvGetString x :: evs). split.
    + cbn [eligible_by_serial]. unfold bind at 1, call. cbn [bus trace].
      rewrite Hs. unfold bind at 1. rewrite E. rewrite Hne.
      cbn [ret]. rewrite <- app_assoc. reflexivity.
    + simpl. exact F.
Qed.

(** An enumeration with zero matching devices makes [DFUDevice.find] raise
    the RuntimeError the retry loop catches. *)
Lemma DFUDevice_find_no_match ser altsetting (d d' : D) tr :
  no_match usb ser d d' ->
  exists evs,
    DFUDevice_find usb altsetting ser None (mkWorld d tr)
    = (Raise (RuntimeError "No ST DFU devices found."),
       mkWorld d' (tr ++ evs))
    /\ filter is_find_or_sleep evs = [EvFind 0x0483 0xDF11].
Proof.
  intros (r & d1 & Hfind & Hm).
  unfold DFUDevice_find, select_device.
  unfold bind at 1. unfold bind at 1. rewrite usb_find_eq, Hfind.
  cbn iota beta.
  destruct ser as [s0|].
  - destruct r as [|x|l].
    + simpl in Hm. subst d'. exists [EvFind 0x0483 0xDF11].
      split; reflexivity.
    + destruct (eligible_none s0 [x] d1 d' (tr ++ [EvFind 0x0483 0xDF11]) Hm)
        as (evs & E & F).
      exists (EvFind 0x0483 0xDF11 :: evs). unfold bind at 1. rewrite E.
      cbn. rewrite <- app_assoc, F. split; reflexivity.
    + destruct (eligible_none s0 l d1 d' (tr ++ [EvFind 0x0483 0xDF11]) Hm)
        as (evs & E & F).
      exists (EvFind 0x0483 0xDF11 :: evs). unfold bind at 1.
      cbn [devices_of] in E. rewrite E.
      cbn. rewrite <- app_assoc, F. split; reflexivity.
  - destruct Hm as [Hnil ->]. exists [EvFind 0x0483 0xDF11].
    destruct r as [|x|l]; simpl in Hnil; try discriminate; subst;
      split; reflexivity.
Qed.

(** C8, as the code has it: when every enumeration finds zero matching
    devices, [find] runs the enumeration once per attempt, sleeps 250 ms
    after every failed attempt, the last one included, and then raises
    Exception("no DFU found").  [inv] is any property of the bus that the
    fruitless enumerations keep; the enumerations and sleeps of the run
    are [attempts] times an enumeration followed by a sleep (none at all
    for [attempts <= 0]). *)
Theorem find_retries_then_not_found :
  forall (ser : option string) (attempts altsetting : Z) (inv : D -> Prop),
    (forall d, inv d -> exists d', no_match usb ser d d' /\ inv d') ->
    forall (d : D) (tr : list (event Dev)),
      inv d ->
      exists (d' : D) (evs : list (event Dev)),
        find usb ser attempts None altsetting (mkWorld d tr)
        = (Raise (Exception_ "no DFU found"), mkWorld d' (tr ++ evs))
        /\ filter is_find_or_sleep evs
           = backoff_after_each_attempt (Z.to_nat attempts)
        /\ inv d'.
Proof.
  intros ser attempts altsetting inv Hinv. unfold find.
  induction (Z.to_nat attempts) as [|n IH]; intros d tr Hd.
  - exists d, []. cbn. rewrite app_nil_r. auto.
  - destruct (Hinv d Hd) as (d1 & Hm & Hd1).
    destruct (DFUDevice_find_no_match ser altsetting d d1 tr Hm)
      as (e1 & E1 & F1).
    destruct (IH d1 ((tr ++ e1) ++ [EvSleep 250]) Hd1)
      as (d' & e2 & E2 & F2 & Hd').
    exists d', (e1 ++ [EvSleep 250] ++ e2). split; [|split].
    + cbn [find_loop]. rewrite E1. cbn [is_RuntimeError].
      unfold bind at 1, sleep at 1. cbn [bus trace].
      rewrite E2. rewrite <- !app_assoc. reflexivity.
    + rewrite !filter_app, F1, F2. reflexivity.
    + exact Hd'.
Qed.

End DriverFacts.

(** * Further properties of the driver *)

(** ** Addresses, blocks and words *)

(** X1: [addr2list] is the little-endian encoding of the low 32 bits of
    any integer: 4 bytes, each in 0..255, that [struct.unpack("<L")] reads
    back as the address modulo 2^32. *)
Theorem addr2list_little_endian :
  forall a : Z,
    List.length (addr2list a) = 4%nat
    /\ Forall (fun b => 0 <= b < 256) (addr2list a)
    /\ unpack_L (addr2list a) = inr (a mod 2 ^ 32).
Proof.
  intros a. unfold addr2list, unpack_L.
  change 0xFF with (Z.ones 8). rewrite !Z.land_ones by lia.
  rewrite !Z.shiftl_mul_pow2, !Z.shiftr_div_pow2 by lia.
  change (2 ^ 8) with 256. change (2 ^ 16) with 65536.
  change (2 ^ 24) with 16777216. change (2 ^ 32) with 4294967296.
  split; [reflexivity|]. split.
  - repeat (constructor; [apply Z.mod_pos_bound; lia|]). constructor.
  - f_equal. Z.div_mod_to_equations. lia.
Qed.

(** X2: for a transfer size above zero [addr2block] rounds down: the block
    it gives starts at or below the address and ends above it.  The block
    is 2 or more exactly when the address is at or above the flash base,
    so such an address never lands on the blocks 0 and 1 of the
    commands. *)
Theorem addr2block_rounds_down :
  forall addr size : Z,
    0 < size ->
    exists block,
      addr2block addr size = inr block
      /\ block2addr block size <= addr < block2addr block size + size
      /\ (2 <= block <-> 0x08000000 <= addr).
Proof.
  intros addr size Hsize. unfold addr2block, block2addr.
  destruct (Z.eqb_spec size 0) as [|_]; [lia|].
  eexists. split; [reflexivity|].
  pose proof (Z.div_mod (addr - 0x08000000) size ltac:(lia)) as E.
  pose proof (Z.mod_pos_bound (addr - 0x08000000) size Hsize) as B.
  split; [nia|].
  split; intros H.
  - assert (0 <= (addr - 0x08000000) / size) by lia. nia.
  - assert (0 <= (addr - 0x08000000) / size)
      by (apply Z.div_pos; lia). lia.
Qed.

Lemma addr2block_rounds_down_witness :
  0 < 2048
  /\ exists block,
       addr2block 0x08004001 2048 = inr block
       /\ block2addr block 2048 <= 0x08004001 < block2addr block 2048 + 2048
       /\ (2 <= block <-> 0x08000000 <= 0x08004001).
Proof.
  assert (H : 0 < 2048) by reflexivity.
  split; [exact H|]. exact (addr2block_rounds_down 0x08004001 2048 H).
Defined.

Section WordFacts.

Variable cmds : Commands.

(** X3: the option word [prepare_options_bytes_detach] computes is a fixed
    point of the computation, so a word that was rewritten is not
    rewritten again; and when the two option bits do not overlap, the
    word is left as read exactly when it has nBOOT0 set and nSWBOOT0
    clear. *)
Theorem boot_word_settles :
  forall op : Z,
    boot_word cmds (boot_word cmds op) = boot_word cmds op
    /\ (Z.land (nBOOT0 cmds) (nSWBOOT0 cmds) = 0 ->
        (boot_word cmds op = op
         <-> Z.land op (nBOOT0 cmds) = nBOOT0 cmds
             /\ Z.land op (nSWBOOT0 cmds) = 0)).
Proof.
  intros op. split.
  - apply Z.bits_inj'. intros i Hi. rewrite !boot_word_bits by exact Hi.
    destruct (Z.testbit op i), (Z.testbit (nBOOT0 cmds) i),
      (Z.testbit (nSWBOOT0 cmds) i); reflexivity.
  - intros Hdisj.
    assert (D : forall i, 0 <= i ->
                Z.testbit (nBOOT0 cmds) i && Z.testbit (nSWBOOT0 cmds) i
                = false).
    { intros i Hi. rewrite <- Z.land_spec, Hdisj. apply Z.bits_0. }
    split.
    + intros H.
      assert (B : forall i, 0 <= i ->
                  (Z.testbit op i || Z.testbit (nBOOT0 cmds) i)
                  && negb (Z.testbit (nSWBOOT0 cmds) i) = Z.testbit op i).
      { intros i Hi. rewrite <- boot_word_bits by exact Hi.
        rewrite H. reflexivity. }
      split; apply Z.bits_inj'; intros i Hi;
        rewrite Z.land_spec; try rewrite Z.bits_0;
        specialize (B i Hi); specialize (D i Hi);
        destruct (Z.testbit op i), (Z.testbit (nBOOT0 cmds) i),
          (Z.testbit (nSWBOOT0 cmds) i); simpl in *; congruence.
    + intros [HB HS]. apply Z.bits_inj'. intros i Hi.
      rewrite boot_word_bits by exact Hi.
      assert (B := f_equal (fun z => Z.testbit z i) HB).
      assert (S := f_equal (fun z => Z.testbit z i) HS).
      cbv beta in B, S. rewrite Z.land_spec in B, S. rewrite Z.bits_0 in S.
      specialize (D i Hi).
      destruct (Z.testbit op i), (Z.testbit (nBOOT0 cmds) i),
        (Z.testbit (nSWBOOT0 cmds) i); simpl in *; congruence.
Qed.

End WordFacts.

Section MoreFacts.

Context {Dev Cfg Intf D : Type}.
Variable usb : Backend Dev Cfg Intf D.
Variable cmds : Commands.

Let world : Type := World Dev D.
Let self_t : Type := DFUDevice Dev Intf.

(** ** Which transfers an operation issues *)

Ltac emits_step :=
  first
    [ apply emits_ret
    | apply emits_raise
    | apply emits_lift
    | apply emits_sleep
    | apply emits_print
    | apply emits_try_except
    | apply emits_bind; [|intros ?]
    | match goal with
      | |- emits _ (if ?b then _ else _) => destruct b
      end ].

Ltac op_event_ok :=
  solve [ exact I
        | cbn [op_event ev_getstatus ev_clrstatus];
          repeat split; (reflexivity || assumption) ].

Section OpEvents.

Variable self : self_t.
Variable reqs : bmReq -> bool.

Lemma op_get_status_loop tries :
  reqs GETSTATUS = true ->
  emits (op_event self reqs) (get_status_loop usb self tries).
Proof.
  intros Hg.
  assert (Hev : op_event self reqs
                  (EvReceive (dev self) GETSTATUS 0 (intNum self) 6))
    by op_event_ok.
  induction tries as [|tries IH]; intros w; cbn [get_status_loop];
    destruct (emits_ctrl_receive usb (op_event self reqs) (dev self)
                GETSTATUS 0 (intNum self) 6 Hev w) as (evs & E & F);
    destruct (ctrl_receive usb (dev self) GETSTATUS 0 (intNum self) 6 w)
      as [[a|e|] w1]; simpl in E; try solve [exists evs; simpl; auto];
    destruct e; try solve [exists evs; simpl; auto];
    destruct (is_EPIPE (USBError errno));
    try solve [exists evs; simpl; auto].
  destruct (emits_bind (op_event self reqs) (sleep 10)
              (fun _ => get_status_loop usb self tries)
              (emits_sleep (op_event self reqs) 10 I) (fun _ => IH) w1)
    as (e2 & E2 & F2).
  exists (evs ++ e2). split; [|apply Forall_app; auto].
  etransitivity; [exact E2|]. rewrite E, app_assoc. reflexivity.
Qed.

Lemma op_get_status :
  reqs GETSTATUS = true ->
  emits (op_event self reqs) (get_status usb cmds self).
Proof.
  intros Hg. unfold get_status. emits_step; [|emits_step].
  apply op_get_status_loop. exact Hg.
Qed.

Lemma op_state :
  reqs GETSTATUS = true ->
  emits (op_event self reqs) (state usb cmds self).
Proof.
  intros Hg. unfold state. emits_step; [|emits_step].
  apply op_get_status. exact Hg.
Qed.

Lemma op_block_on_state fuel st :
  reqs GETSTATUS = true ->
  emits (op_event self reqs) (block_on_state usb cmds fuel self st).
Proof.
  intros Hg. unfold block_on_state.
  emits_step; [apply op_get_status; exact Hg|].
  revert a. induction fuel as [|fuel IH]; intros s;
    cbn [block_on_state_loop]; emits_step; try emits_step.
  - intros w. exists []. simpl. rewrite app_nil_r. auto.
  - emits_step. exact I.
  - emits_step; [apply op_get_status; exact Hg|]. apply IH.
Qed.

Lemma op_clear_status :
  reqs CLRSTATUS = true ->
  emits (op_event self reqs) (clear_status usb self).
Proof.
  intros Hc. unfold clear_status. emits_step; [|emits_step].
  apply emits_ctrl_send. op_event_ok.
Qed.

Lemma op_check_state valid msg :
  reqs GETSTATUS = true -> reqs CLRSTATUS = true ->
  emits (op_event self reqs) (check_state usb cmds self valid msg).
Proof.
  intros Hg Hc. unfold check_state.
  emits_step; [apply op_state; exact Hg|].
  emits_step.
  - emits_step; [emits_step; [|]; apply op_clear_status; exact Hc
                |emits_step].
  - emits_step; [apply op_state; exact Hg|]. emits_step; emits_step.
Qed.

Lemma op_dnload block data :
  reqs DNLOAD = true ->
  emits (op_event self reqs) (dnload usb self block data).
Proof. intros Hd. unfold dnload. apply emits_ctrl_send. op_event_ok. Qed.

Lemma op_upload block size :
  reqs UPLOAD = true ->
  emits (op_event self reqs) (upload usb self block size).
Proof. intros Hu. unfold upload. apply emits_ctrl_receive. op_event_ok. Qed.

Lemma op_assert_download_idle :
  reqs GETSTATUS = true ->
  emits (op_event self reqs) (assert_download_idle usb cmds self).
Proof.
  intros Hg. unfold assert_download_idle.
  emits_step; [apply op_state; exact Hg|]. emits_step; emits_step.
Qed.

Lemma op_write_page fuel addr data :
  reqs GETSTATUS = true -> reqs CLRSTATUS = true -> reqs DNLOAD = true ->
  emits (op_event self reqs) (write_page usb cmds fuel self addr data).
Proof.
  intros Hg Hc Hd. unfold write_page.
  emits_step; [apply op_check_state; assumption|].
  emits_step; [emits_step|].
  emits_step; [apply op_dnload; exact Hd|].
  emits_step; [apply op_block_on_state; exact Hg|].
  apply op_assert_download_idle; exact Hg.
Qed.

Lemma op_read_mem addr size :
  reqs GETSTATUS = true -> reqs CLRSTATUS = true -> reqs UPLOAD = true ->
  emits (op_event self reqs) (read_mem usb cmds self addr size).
Proof.
  intros Hg Hc Hu. unfold read_mem.
  emits_step; [emits_step|].
  emits_step; [apply op_check_state; assumption|].
  apply op_upload; exact Hu.
Qed.

Lemma op_write_option_bytes fuel m :
  reqs GETSTATUS = true -> reqs CLRSTATUS = true -> reqs DNLOAD = true ->
  emits (op_event self reqs) (write_option_bytes usb cmds fuel self m).
Proof.
  intros Hg Hc Hd. unfold write_option_bytes.
  emits_step; [apply op_block_on_state; exact Hg|].
  emits_step; [|emits_step; exact I].
  emits_step; [apply op_write_page; assumption|].
  apply op_block_on_state; exact Hg.
Qed.

Lemma op_read_option_bytes fuel :
  reqs GETSTATUS = true -> reqs CLRSTATUS = true -> reqs DNLOAD = true ->
  reqs UPLOAD = true ->
  emits (op_event self reqs) (read_option_bytes usb cmds fuel self).
Proof.
  intros Hg Hc Hd Hu. unfold read_option_bytes, set_addr.
  emits_step; [apply op_dnload; exact Hd|].
  emits_step; [apply op_block_on_state; exact Hg|].
  emits_step; [apply op_read_mem; assumption|]. emits_step.
Qed.

End OpEvents.

(** X4: a status query and a wait touch nothing but the status: what
    [get_status], [state] and [block_on_state] add to the trace are
    GETSTATUS transfers to the device and interface the driver is bound
    to, and sleeps; never a CLRSTATUS, a download or an upload, whatever
    the device answers. *)
Theorem status_queries_only_get_status :
  forall (self : self_t) (fuel : nat) (st : DfuState),
    emits (op_event self status_only) (get_status usb cmds self)
    /\ emits (op_event self status_only) (state usb cmds self)
    /\ emits (op_event self status_only)
         (block_on_state usb cmds fuel self st).
Proof.
  intros self fuel st. split; [|split].
  - apply op_get_status. reflexivity.
  - apply op_state. reflexivity.
  - apply op_block_on_state. reflexivity.
Qed.

(** X5: reading never writes and writing never reads.  Whatever the
    device answers, [read_mem] issues no download transfer; [write_page],
    [mass_erase], [erase], [set_addr], [detach] and [write_option_bytes]
    issue no upload transfer; and every control transfer of these
    operations, and of [read_option_bytes] and
    [prepare_options_bytes_detach], goes to the device and interface the
    driver is bound to. *)
Theorem reads_never_download_writes_never_upload :
  forall (self : self_t) (fuel : nat) (addr size : Z) (data : list Z),
    emits (op_event self read_requests) (read_mem usb cmds self addr size)
    /\ emits (op_event self write_requests)
         (write_page usb cmds fuel self addr data)
    /\ emits (op_event self write_requests) (mass_erase usb cmds fuel self)
    /\ emits (op_event self write_requests) (erase usb self addr)
    /\ emits (op_event self write_requests) (set_addr usb self addr)
    /\ emits (op_event self write_requests) (detach usb cmds self)
    /\ emits (op_event self write_requests)
         (write_option_bytes usb cmds fuel self data)
    /\ emits (op_event self any_request)
         (read_option_bytes usb cmds fuel self)
    /\ emits (op_event self any_request)
         (prepare_options_bytes_detach usb cmds fuel self).
Proof.
  intros self fuel addr size data.
  repeat match goal with |- _ /\ _ => split end.
  - apply op_read_mem; reflexivity.
  - apply op_write_page; reflexivity.
  - unfold mass_erase.
    emits_step; [apply op_dnload; reflexivity|].
    emits_step; [apply op_block_on_state; reflexivity|].
    apply op_assert_download_idle; reflexivity.
  - unfold erase. apply op_dnload; reflexivity.
  - unfold set_addr. apply op_dnload; reflexivity.
  - unfold detach.
    emits_step; [apply op_check_state; reflexivity|].
    emits_step; [apply op_dnload; reflexivity|].
    apply op_get_status; reflexivity.
  - apply op_write_option_bytes; reflexivity.
  - apply op_read_option_bytes; reflexivity.
  - unfold prepare_options_bytes_detach.
    emits_step; [apply op_read_mem; reflexivity|].
    emits_step; [apply op_write_option_bytes; reflexivity|].
    emits_step; [apply op_read_option_bytes; reflexivity|].
    unfold rewrite_if_changed.
    emits_step; [emits_step|]. emits_step; [|emits_step].
    emits_step; [emits_step; exact I|].
    emits_step; [emits_step|].
    apply op_write_option_bytes; reflexivity.
Qed.

(** ** The state check, both ways out *)

Lemma check_state_passes_at_once (self : self_t) valid msg w s1 w1 s2 w2 :
  state usb cmds self w = (Ok s1, w1) ->
  not_in s1 valid = false ->
  state usb cmds self w1 = (Ok s2, w2) ->
  not_in s2 valid = false ->
  check_state usb cmds self valid msg w = (Ok tt, w2).
Proof.
  intros H1 V1 H2 V2. unfold check_state.
  rewrite (bind_Ok _ _ _ _ _ H1). rewrite V1. rewrite bind_ret_l.
  rewrite (bind_Ok _ _ _ _ _ H2). rewrite V2. reflexivity.
Qed.

Lemma check_state_recovers (self : self_t) valid msg w s1 w1 w2 w3 s2 w4 :
  state usb cmds self w = (Ok s1, w1) ->
  not_in s1 valid = true ->
  clear_status usb self w1 = (Ok tt, w2) ->
  clear_status usb self w2 = (Ok tt, w3) ->
  state usb cmds self w3 = (Ok s2, w4) ->
  not_in s2 valid = false ->
  check_state usb cmds self valid msg w = (Ok tt, w4).
Proof.
  intros H1 V1 C1 C2 H2 V2. unfold check_state.
  rewrite (bind_Ok _ _ _ _ _ H1). rewrite V1.
  erewrite bind_Ok.
  2:{ erewrite bind_Ok; [exact C2 | exact C1]. }
  rewrite (bind_Ok _ _ _ _ _ H2). rewrite V2. reflexivity.
Qed.

Lemma check_state_clear_raises (self : self_t) valid msg w s1 w1 e w2 :
  state usb cmds self w = (Ok s1, w1) ->
  not_in s1 valid = true ->
  clear_status usb self w1 = (Raise e, w2) ->
  check_state usb cmds self valid msg w = (Raise e, w2).
Proof.
  intros H1 V1 C1. unfold check_state.
  rewrite (bind_Ok _ _ _ _ _ H1). rewrite V1.
  erewrite bind_Raise; [reflexivity|].
  erewrite bind_Raise; [reflexivity|exact C1].
Qed.

Lemma read_mem_after_check (self : self_t) addr size w r w' :
  size <> 0 ->
  check_state usb cmds self [IDLE; UPLOAD_IDLE]
    "DFU device not in correct state for reading memory." w = (r, w') ->
  read_mem usb cmds self addr size w
  = match r with
    | Ok _ => upload usb self ((addr - 0x08000000) / size + 2) size w'
    | Raise e => (Raise e, w')
    | OutOfFuel => (OutOfFuel, w')
    end.
Proof.
  intros Hsize Hc. unfold read_mem, addr2block.
  destruct (Z.eqb_spec size 0) as [|_]; [contradiction|].
  cbn [lift]. rewrite bind_ret_l. unfold bind. rewrite Hc.
  destruct r; reflexivity.
Qed.

(** X6: a transfer of length zero raises ZeroDivisionError and moves no
    data.  [read_mem] with size 0 raises before it has issued anything,
    not even a status query; [write_page] with empty data raises once its
    state check has passed, and whatever the device answers it issues no
    download. *)
Theorem zero_length_transfers_raise :
  forall (fuel : nat) (self : self_t) (addr : Z) (w : world),
    read_mem usb cmds self addr 0 w = (Raise ZeroDivisionError, w)
    /\ emits no_transfer (write_page usb cmds fuel self addr [])
    /\ (forall w',
           check_state usb cmds self [IDLE; DOWNLOAD_IDLE]
             "DFU device not in correct state for writing memory." w
           = (Ok tt, w') ->
           write_page usb cmds fuel self addr [] w
           = (Raise ZeroDivisionError, w')).
Proof.
  intros fuel self addr w. split; [reflexivity|].
  assert (E : forall w0,
             write_page usb cmds fuel self addr [] w0
             = bind (check_state usb cmds self [IDLE; DOWNLOAD_IDLE]
                       "DFU device not in correct state for writing memory.")
                    (fun _ => raise ZeroDivisionError) w0).
  { intros w0. unfold write_page, bind.
    destruct (check_state usb cmds self [IDLE; DOWNLOAD_IDLE] _ w0)
      as [[[]|e|] w1]; reflexivity. }
  split.
  - intros w0. rewrite E.
    apply (emits_weaken (op_event self status_and_clear)).
    + intros ev. destruct ev; simpl; try tauto;
        destruct req; simpl; intuition discriminate.
    + emits_step; [apply op_check_state; reflexivity|]. emits_step.
  - intros w' Hc. rewrite E, (bind_Ok _ _ _ _ _ Hc). reflexivity.
Qed.

(** X7: in a valid state an operation clears nothing.  When both status
    queries of the check report a state valid for the operation, the
    driver has issued status transfers and sleeps only, no CLRSTATUS, and
    goes on: [write_page] with its download, wait and assertion, [detach]
    with the empty download of block 0 and a last status query,
    [read_mem] with the upload of the block of the address. *)
Theorem operations_proceed_in_valid_state :
  forall (fuel : nat) (self : self_t) (addr : Z) (data : list Z)
         (raddr size : Z) (w w1 w2 : world) (s1 s2 : DfuState),
    state usb cmds self w = (Ok s1, w1) ->
    state usb cmds self w1 = (Ok s2, w2) ->
    size <> 0 ->
    (exists q, trace w2 = trace w ++ q /\ Forall status_event q)
    /\ (not_in s1 [IDLE; DOWNLOAD_IDLE] = false ->
        not_in s2 [IDLE; DOWNLOAD_IDLE] = false ->
        write_page usb cmds fuel self addr data w
        = (block <- lift (addr2block addr (Z.of_nat (List.length data))) ;;
           dnload usb self block data ;;
           block_on_state usb cmds fuel self DOWNLOAD_BUSY ;;
           assert_download_idle usb cmds self) w2
        /\ detach usb cmds self w
           = (dnload usb self 0 [] ;; get_status usb cmds self) w2)
    /\ (not_in s1 [IDLE; UPLOAD_IDLE] = false ->
        not_in s2 [IDLE; UPLOAD_IDLE] = false ->
        read_mem usb cmds self raddr size w
        = upload usb self ((raddr - 0x08000000) / size + 2) size w2).
Proof.
  intros fuel self addr data raddr size w w1 w2 s1 s2 H1 H2 Hsize.
  split; [|split].
  - destruct (emits_run _ _ _ _ _ (emits_state usb cmds self) H1)
      as (q1 & E1 & F1).
    destruct (emits_run _ _ _ _ _ (emits_state usb cmds self) H2)
      as (q2 & E2 & F2).
    exists (q1 ++ q2). rewrite E2, E1, app_assoc. split; [reflexivity|].
    apply Forall_app; auto.
  - intros V1 V2.
    pose proof (check_state_passes_at_once self [IDLE; DOWNLOAD_IDLE]) as P.
    split.
    + unfold write_page. erewrite bind_Ok; [reflexivity|].
      eapply P; eauto.
    + unfold detach. erewrite bind_Ok; [reflexivity|].
      eapply P; eauto.
  - intros V1 V2.
    rewrite (read_mem_after_check self raddr size w (Ok tt) w2 Hsize).
    + reflexivity.
    + eapply check_state_passes_at_once; eauto.
Qed.

(** X8: two clears bring an operation back.  When the first status query
    reports a state that is not valid (ERROR, say), both CLRSTATUS
    transfers go through and the status queried next is valid, the
    operation goes on from there as it does from a valid state. *)
Theorem operations_recover_after_two_clears :
  forall (fuel : nat) (self : self_t) (addr : Z) (data : list Z)
         (raddr size : Z) (w w1 w2 w3 w4 : world) (s1 s2 : DfuState),
    state usb cmds self w = (Ok s1, w1) ->
    clear_status usb self w1 = (Ok tt, w2) ->
    clear_status usb self w2 = (Ok tt, w3) ->
    state usb cmds self w3 = (Ok s2, w4) ->
    size <> 0 ->
    (not_in s1 [IDLE; DOWNLOAD_IDLE] = true ->
     not_in s2 [IDLE; DOWNLOAD_IDLE] = false ->
     write_page usb cmds fuel self addr data w
     = (block <- lift (addr2block addr (Z.of_nat (List.length data))) ;;
        dnload usb self block data ;;
        block_on_state usb cmds fuel self DOWNLOAD_BUSY ;;
        assert_download_idle usb cmds self) w4
     /\ detach usb cmds self w
        = (dnload usb self 0 [] ;; get_status usb cmds self) w4)
    /\ (not_in s1 [IDLE; UPLOAD_IDLE] = true ->
        not_in s2 [IDLE; UPLOAD_IDLE] = false ->
        read_mem usb cmds self raddr size w
        = upload usb self ((raddr - 0x08000000) / size + 2) size w4).
Proof.
  intros fuel self addr data raddr size w w1 w2 w3 w4 s1 s2
         H1 C1 C2 H2 Hsize.
  split.
  - intros V1 V2.
    pose proof (check_state_recovers self [IDLE; DOWNLOAD_IDLE]) as P.
    split.
    + unfold write_page. erewrite bind_Ok; [reflexivity|].
      eapply P; eauto.
    + unfold detach. erewrite bind_Ok; [reflexivity|].
      eapply P; eauto.
  - intros V1 V2.
    rewrite (read_mem_after_check self raddr size w (Ok tt) w4 Hsize).
    + reflexivity.
    + eapply check_state_recovers; eauto.
Qed.

(** X9: a CLRSTATUS that fails ends the operation.  When the first status
    query reports a state that is not valid and the first [clear_status]
    raises, the operation raises that same exception; the second
    CLRSTATUS is never issued, and neither is a download or an upload. *)
Theorem failed_clear_ends_the_operation :
  forall (fuel : nat) (self : self_t) (addr : Z) (data : list Z)
         (raddr size : Z) (w w1 w2 : world) (s1 : DfuState) (e : exn),
    state usb cmds self w = (Ok s1, w1) ->
    clear_status usb self w1 = (Raise e, w2) ->
    size <> 0 ->
    trace w2 = trace w1 ++ [ev_clrstatus self]
    /\ (not_in s1 [IDLE; DOWNLOAD_IDLE] = true ->
        write_page usb cmds fuel self addr data w = (Raise e, w2)
        /\ detach usb cmds self w = (Raise e, w2))
    /\ (not_in s1 [IDLE; UPLOAD_IDLE] = true ->
        read_mem usb cmds self raddr size w = (Raise e, w2)).
Proof.
  intros fuel self addr data raddr size w w1 w2 s1 e H1 C1 Hsize.
  split; [exact (clear_status_trace usb self _ _ _ C1)|]. split.
  - intros V1.
    pose proof (check_state_clear_raises self [IDLE; DOWNLOAD_IDLE]) as P.
    split.
    + unfold write_page. eapply bind_Raise. eapply P; eauto.
    + unfold detach. eapply bind_Raise. eapply P; eauto.
  - intros V1.
    rewrite (read_mem_after_check self raddr size w (Raise e) w2 Hsize).
    + reflexivity.
    + eapply check_state_clear_raises; eauto.
Qed.

(** ** Option bytes: which errors are swallowed *)

(** X10: [write_option_bytes] swallows an OSError of the write, and only
    that.  An exception of the first wait is raised whatever its class,
    since the wait stands before the [try].  Once that wait has returned,
    an exception of [write_page] or of the wait after it is answered by
    the printed warning and a normal return when it is an OSError (a
    USBError is one), and is raised otherwise (the RuntimeError of the
    state check and the AssertionError of the postcondition are). *)
Theorem write_option_bytes_swallows_oserror_of_the_write :
  forall (fuel : nat) (self : self_t) (m : list Z) (w : world),
    (forall e w1,
        block_on_state usb cmds fuel self DOWNLOAD_BUSY w = (Raise e, w1) ->
        write_option_bytes usb cmds fuel self m w = (Raise e, w1))
    /\ (forall w1 e w2,
           block_on_state usb cmds fuel self DOWNLOAD_BUSY w = (Ok tt, w1) ->
           (write_page usb cmds fuel self 0 m ;;
            block_on_state usb cmds fuel self DOWNLOAD_BUSY) w1
           = (Raise e, w2) ->
           write_option_bytes usb cmds fuel self m w
           = if is_OSError e
             then (Ok tt,
                   mkWorld (bus w2)
                     (trace w2 ++ [EvPrint "Warning: OSError with write_page"]))
             else (Raise e, w2)).
Proof.
  intros fuel self m w. split.
  - intros e w1 Hb. unfold write_option_bytes.
    exact (bind_Raise _ _ _ _ _ Hb).
  - intros w1 e w2 Hb Hw. unfold write_option_bytes.
    rewrite (bind_Ok _ _ _ _ _ Hb). unfold try_except. rewrite Hw.
    destruct (is_OSError e); reflexivity.
Qed.

(** X11: a write that ends well.  Once the download went through and the
    wait on DOWNLOAD_BUSY returned, a status query that reports
    DOWNLOAD_IDLE lets [mass_erase] and [write_page] return normally, with
    nothing issued after that query. *)
Theorem write_and_erase_return_on_download_idle :
  forall (fuel : nat) (self : self_t) (w1 w2 w3 : world),
    block_on_state usb cmds fuel self DOWNLOAD_BUSY w1 = (Ok tt, w2) ->
    state usb cmds self w2 = (Ok DOWNLOAD_IDLE, w3) ->
    (forall (w : world) (n : Z),
        dnload usb self 0 [0x41] w = (Ok n, w1) ->
        mass_erase usb cmds fuel self w = (Ok tt, w3))
    /\ (forall (w w0 : world) (addr block n : Z) (data : list Z),
           check_state usb cmds self [IDLE; DOWNLOAD_IDLE]
             "DFU device not in correct state for writing memory." w
           = (Ok tt, w0) ->
           addr2block addr (Z.of_nat (List.length data)) = inr block ->
           dnload usb self block data w0 = (Ok n, w1) ->
           write_page usb cmds fuel self addr data w = (Ok tt, w3)).
Proof.
  intros fuel self w1 w2 w3 Hblock Hstate.
  assert (Hassert : assert_download_idle usb cmds self w2 = (Ok tt, w3)).
  { unfold assert_download_idle. rewrite (bind_Ok _ _ _ _ _ Hstate).
    reflexivity. }
  split.
  - intros w n Hd. unfold mass_erase.
    rewrite (bind_Ok _ _ _ _ _ Hd), (bind_Ok _ _ _ _ _ Hblock).
    exact Hassert.
  - intros w w0 addr block n data Hcheck Hb Hd. unfold write_page.
    rewrite (bind_Ok _ _ _ _ _ Hcheck), Hb. cbn [lift].
    rewrite bind_ret_l.
    rewrite (bind_Ok _ _ _ _ _ Hd), (bind_Ok _ _ _ _ _ Hblock).
    exact Hassert.
Qed.

(** ** The wait without a bound *)

(** X12: [block_on_state] has no bound of its own.  On a device that stays
    in the awaited state the wait is not over after any number of polls:
    for every fuel the run ends [OutOfFuel], having issued one status
    transfer and one sleep of the reported time-out for each of [fuel]
    polls and one more status transfer. *)
Theorem block_on_state_waits_as_long_as_busy :
  forall (self : self_t) (st : DfuState) (inv : D -> Prop),
    stays_in usb cmds self st inv ->
    forall (fuel : nat) (d : D) (tr : list (event Dev)),
      inv d ->
      exists (d' : D) (busy : list DfuStatus),
        block_on_state usb cmds fuel self st (mkWorld d tr)
        = (OutOfFuel,
           mkWorld d' (tr ++ poll_events self busy ++ [ev_getstatus self]))
        /\ List.length busy = fuel
        /\ Forall (fun s => state_of s = st) busy
        /\ inv d'.
Proof.
  intros self st inv Hstay.
  induction fuel as [|fuel IH]; intros d tr Hd;
    destruct (Hstay d Hd) as (raw & d1 & s & Hr & Hs & Hst & Hd1);
    pose proof (get_status_answered usb cmds self d tr raw d1 s Hr Hs) as Hg.
  - exists d1, []. repeat split; auto.
    unfold block_on_state. rewrite (bind_Ok _ _ _ _ _ Hg).
    cbn [block_on_state_loop].
    apply DfuState_eqb_eq in Hst. rewrite Hst. reflexivity.
  - rewrite (block_on_state_busy usb cmds fuel self st _ s _ Hg Hst).
    cbn [bus trace].
    destruct (IH d1 ((tr ++ [ev_getstatus self]) ++ [EvSleep (timeout s)])
                Hd1) as (d' & busy & E & Hlen & Hall & Hd').
    exists d', (s :: busy). rewrite E. repeat split; auto.
    + cbn [poll_events flat_map]. rewrite <- !app_assoc. reflexivity.
    + simpl. rewrite Hlen. reflexivity.
Qed.

(** ** Fuel *)

Lemma fuel_stable_const {A} (m : M world A) :
  fuel_stable (fun _ : nat => m).
Proof. intros n w r w' E _ n' _. exact E. Qed.

Lemma fuel_stable_bind {A B} (f : nat -> M world A)
  (k : nat -> A -> M world B) :
  fuel_stable f -> (forall a, fuel_stable (fun n => k n a)) ->
  fuel_stable (fun n => bind (f n) (k n)).
Proof.
  intros Hf Hk n w r w' E Hr n' Hn. unfold bind in *.
  destruct (f n w) as [[a|e|] w1] eqn:Ef.
  - rewrite (Hf n w (Ok a) w1 Ef ltac:(discriminate) n' Hn).
    exact (Hk a n w1 r w' E Hr n' Hn).
  - rewrite (Hf n w (Raise e) w1 Ef ltac:(discriminate) n' Hn). exact E.
  - inversion E; subst. contradiction.
Qed.

Lemma fuel_stable_try_except {A} (f : nat -> M world A) c (h : M world A) :
  fuel_stable f -> fuel_free h ->
  fuel_stable (fun n => try_except (f n) c h).
Proof.
  intros Hf Hh n w r w' E Hr n' Hn. unfold try_except in *.
  destruct (f n w) as [[a|e|] w1] eqn:Ef.
  - rewrite (Hf n w (Ok a) w1 Ef ltac:(discriminate) n' Hn). exact E.
  - rewrite (Hf n w (Raise e) w1 Ef ltac:(discriminate) n' Hn). exact E.
  - inversion E; subst. contradiction.
Qed.

Lemma fuel_stable_block_on_state (self : self_t) st :
  fuel_stable (fun n => block_on_state usb cmds n self st).
Proof.
  unfold block_on_state. apply fuel_stable_bind.
  - apply fuel_stable_const.
  - intros s n. revert s.
    induction n as [|n IH]; intros s w r w' E Hr n' Hn;
      cbn [block_on_state_loop] in E.
    + destruct n' as [|n']; cbn [block_on_state_loop];
        destruct (DfuState_eqb (state_of s) st); try exact E;
        inversion E; subst; contradiction.
    + destruct n' as [|n']; [lia|]. cbn [block_on_state_loop].
      destruct (DfuState_eqb (state_of s) st); [|exact E].
      unfold bind in *. cbn [sleep] in *.
      destruct (get_status usb cmds self _) as [[s'|e|] w1]; try exact E.
      apply (IH s' w1 r w' E Hr n'). lia.
Qed.

Lemma fuel_stable_write_page (self : self_t) addr data :
  fuel_stable (fun n => write_page usb cmds n self addr data).
Proof.
  unfold write_page.
  apply (fuel_stable_bind (fun _ => _) (fun n _ => _));
    [apply fuel_stable_const|intros _].
  apply (fuel_stable_bind (fun _ => _) (fun n b => _));
    [apply fuel_stable_const|intros b].
  apply (fuel_stable_bind (fun _ => _) (fun n _ => _));
    [apply fuel_stable_const|intros _].
  apply (fuel_stable_bind (fun n => _) (fun n _ => _));
    [apply fuel_stable_block_on_state|intros _].
  apply fuel_stable_const.
Qed.

Lemma fuel_stable_write_option_bytes (self : self_t) m :
  fuel_stable (fun n => write_option_bytes usb cmds n self m).
Proof.
  unfold write_option_bytes.
  apply (fuel_stable_bind (fun n => _) (fun n _ => _));
    [apply fuel_stable_block_on_state|intros _].
  apply (fuel_stable_try_except (fun n => _)).
  - apply (fuel_stable_bind (fun n => _) (fun n _ => _));
      [apply fuel_stable_write_page|intros _].
    apply fuel_stable_block_on_state.
  - intros w. discriminate.
Qed.

Lemma fuel_stable_read_option_bytes (self : self_t) :
  fuel_stable (fun n => read_option_bytes usb cmds n self).
Proof.
  unfold read_option_bytes.
  apply (fuel_stable_bind (fun _ => _) (fun n _ => _));
    [apply fuel_stable_const|intros _].
  apply (fuel_stable_bind (fun n => _) (fun n _ => _));
    [apply fuel_stable_block_on_state|intros _].
  apply fuel_stable_const.
Qed.


(** ** Binding an interface *)

Lemma scan_interfaces_found (d : Dev) (cfg : Cfg) (alt : Z) :
  forall (intfs : list Intf) (k : Z) (w : world) (self : self_t) (w' : world),
    scan_interfaces usb d cfg alt k intfs w = (Ok (Some self), w') ->
    dev self = d
    /\ cfg_getitem usb cfg (intNum self) alt = inr (intf self)
    /\ k <= intNum self < k + Z.of_nat (List.length intfs)
    /\ (forall j, k <= j < intNum self ->
          exists n, cfg_getitem usb cfg j alt = inl (USBError n))
    /\ trace w' = trace w ++ [EvSetAltsetting d (intNum self) alt].
Proof.
  induction intfs as [|i intfs IH]; intros k w self w' E;
    cbn [scan_interfaces] in E; [discriminate|].
  destruct (cfg_getitem usb cfg k alt) as [e|a] eqn:Eg.
  - destruct e; try discriminate.
    destruct (IH (k + 1) w self w' E) as (Hd & Hi & Hr & Hb & Ht).
    repeat split; try assumption; try (cbn [List.length]; lia).
    intros j Hj. destruct (Z.eq_dec j k) as [->|Hne]; [eauto|].
    apply Hb. lia.
  - unfold bind, call in E.
    destruct (set_interface_altsetting usb d k alt (bus w)) as [[e|[]] d1];
      [discriminate|].
    inversion E; subst. cbn [dev intNum intf trace].
    repeat split; try assumption; try (cbn [List.length]; lia).
Qed.

Lemma scan_interfaces_none (d : Dev) (cfg : Cfg) (alt : Z) :
  forall (intfs : list Intf) (k : Z) (w w' : world),
    scan_interfaces usb d cfg alt k intfs w = (Ok None, w') ->
    w' = w /\ no_altsetting usb cfg alt k intfs.
Proof.
  induction intfs as [|i intfs IH]; intros k w w' E;
    cbn [scan_interfaces] in E.
  - inversion E. split; [reflexivity|exact I].
  - destruct (cfg_getitem usb cfg k alt) as [e|a] eqn:Eg.
    + destruct e; try discriminate.
      destruct (IH (k + 1) w w' E) as [-> Hn].
      split; [reflexivity|]. cbn [no_altsetting]. eauto.
    + unfold bind, call in E.
      destruct (set_interface_altsetting usb d k alt (bus w))
        as [[e|[]] d1]; discriminate.
Qed.

Lemma no_altsetting_scan_interfaces (d : Dev) (cfg : Cfg) (alt : Z) :
  forall (intfs : list Intf) (k : Z) (w : world),
    no_altsetting usb cfg alt k intfs ->
    scan_interfaces usb d cfg alt k intfs w = (Ok None, w).
Proof.
  induction intfs as [|i intfs IH]; intros k w H; cbn [scan_interfaces].
  - reflexivity.
  - destruct H as [[n Hn] Hrest]. rewrite Hn. apply IH. exact Hrest.
Qed.

Lemma scan_configurations_found (d : Dev) (alt : Z) :
  forall (cfgs : list Cfg) (w : world) (self : self_t) (w' : world),
    scan_configurations usb d alt cfgs w = (Ok (Some self), w') ->
    exists before cfg after,
      cfgs = before ++ cfg :: after
      /\ Forall (fun c => no_altsetting usb c alt 0 (interfaces usb c)) before
      /\ dev self = d
      /\ cfg_getitem usb cfg (intNum self) alt = inr (intf self)
      /\ 0 <= intNum self < Z.of_nat (List.length (interfaces usb cfg))
      /\ (forall j, 0 <= j < intNum self ->
            exists n, cfg_getitem usb cfg j alt = inl (USBError n))
      /\ trace w' = trace w ++ [EvSetAltsetting d (intNum self) alt].
Proof.
  induction cfgs as [|c cfgs IH]; intros w self w' E;
    cbn [scan_configurations] in E; [discriminate|].
  unfold bind in E.
  destruct (scan_interfaces usb d c alt 0 (interfaces usb c) w)
    as [[[s0|]|e|] w1] eqn:Es; try discriminate.
  - inversion E; subst.
    destruct (scan_interfaces_found d c alt _ _ _ _ _ Es)
      as (Hd & Hi & Hr & Hb & Ht).
    exists [], c, cfgs. repeat split; try assumption; try lia.
    constructor.
  - destruct (scan_interfaces_none d c alt _ _ _ _ Es) as [-> Hn].
    destruct (IH w self w' E)
      as (before & cfg & after & Hc & Hf & Hd & Hi & Hr & Hb & Ht).
    exists (c :: before), cfg, after. rewrite Hc.
    repeat split; try assumption; try lia. constructor; assumption.
Qed.


Lemma DFUDevice_find_raw_dev alt ser (x : Dev) (w : world) self w' :
  DFUDevice_find usb alt ser (Some x) w = (Ok self, w') -> dev self = x.
Proof.
  intros E. unfold DFUDevice_find, select_device in E.
  rewrite bind_ret_l in E. unfold bind at 1, call in E.
  destruct (set_configuration usb x (bus w)) as [[e|[]] d2];
    [discriminate|].
  unfold bind in E.
  match type of E with
  | context [scan_configurations usb x alt ?c ?w0] =>
      destruct (scan_configurations usb x alt c w0)
        as [[[s0|]|e|] w3] eqn:Esc; try discriminate
  end.
  inversion E; subst.
  destruct (scan_configurations_found x alt _ _ _ _ Esc)
    as (_ & _ & _ & _ & _ & Hd & _). exact Hd.
Qed.

Lemma find_loop_raw_dev ser alt (x : Dev) :
  forall (n : nat) (w : world) self w',
    find_loop usb n ser (Some x) alt w = (Ok self, w') -> dev self = x.
Proof.
  induction n as [|n IH]; intros w self w' E; cbn [find_loop] in E;
    [discriminate|].
  destruct (DFUDevice_find usb alt ser (Some x) w) as [[s0|e|] w1] eqn:Ef.
  - inversion E; subst. exact (DFUDevice_find_raw_dev _ _ _ _ _ _ Ef).
  - destruct (is_RuntimeError e); [|discriminate].
    unfold bind, sleep in E. exact (IH _ _ _ E).
  - discriminate.
Qed.

Lemma find_each_devs :
  forall (devs : list Dev) (w : world) l w',
    find_each usb devs w = (Ok l, w') -> map dev l = devs.
Proof.
  induction devs as [|x devs IH]; intros w l w' E; cbn [find_each] in E.
  - inversion E. reflexivity.
  - unfold bind at 1 in E.
    destruct (find usb None 8 (Some x) 1 w) as [[s0|e|] w1] eqn:Ef;
      try discriminate.
    unfold bind at 1 in E.
    destruct (find_each usb devs w1) as [[tl|e|] w2] eqn:Et;
      try discriminate.
    inversion E; subst. cbn [map]. f_equal.
    + exact (find_loop_raw_dev None 1 x _ _ _ _ Ef).
    + exact (IH _ _ _ Et).
Qed.

(** X15: [find_all] returns one bound driver per enumerated device, in
    the order of the enumeration, or raises: a device that cannot be
    bound is never left out of a returned list.  With nothing enumerated
    it returns the empty list after the one enumeration. *)
Theorem find_all_binds_every_device :
  (forall (d d' : D) (tr : list (event Dev)) (r : find_result Dev),
      usb_core_find usb 0x0483 0xDF11 d = (inr r, d') ->
      devices_of r = [] ->
      find_all usb (mkWorld d tr)
      = (Ok [], mkWorld d' (tr ++ [EvFind 0x0483 0xDF11])))
  /\ (forall (w : world) (l : list self_t) (w' : world),
         find_all usb w = (Ok l, w') ->
         exists r d',
           usb_core_find usb 0x0483 0xDF11 (bus w) = (inr r, d')
           /\ map dev l = devices_of r).
Proof.
  split.
  - intros d d' tr r Hf Hnil. unfold find_all, bind.
    rewrite usb_find_eq, Hf. cbn iota beta.
    destruct r as [|x|l]; cbn [devices_of] in Hnil;
      try discriminate; subst; reflexivity.
  - intros w l w' E. unfold find_all, bind, call in E.
    destruct (usb_core_find usb 0x0483 0xDF11 (bus w)) as [[e|r] d'];
      [discriminate|].
    exists r, d'. split; [reflexivity|].
    destruct r as [|x|l0]; cbn [devices_of].
    + inversion E. reflexivity.
    + exact (find_each_devs _ _ _ _ E).
    + exact (find_each_devs _ _ _ _ E).
Qed.

Lemma no_altsetting_scan_configurations (d : Dev) (alt : Z) :
  forall (cfgs : list Cfg) (w : world),
    Forall (fun c => no_altsetting usb c alt 0 (interfaces usb c)) cfgs ->
    scan_configurations usb d alt cfgs w = (Ok None, w).
Proof.
  induction cfgs as [|c cfgs IH]; intros w H; cbn [scan_configurations].
  - reflexivity.
  - inversion H as [|? ? Hc Hrest]; subst.
    unfold bind. rewrite (no_altsetting_scan_interfaces d c alt _ 0 w Hc).
    apply IH. exact Hrest.
Qed.


(** ** Selecting by serial number *)

Lemma eligible_by_serial_filter (serial : Dev -> string) (ser : string) :
  (forall x d, usb_util_get_string usb x d = (inr (serial x), d)) ->
  forall (devs : list Dev) (d : D) (tr : list (event Dev)),
    eligible_by_serial usb ser devs (mkWorld d tr)
    = (Ok (filter (fun x => String.eqb ser (serial x)) devs),
       mkWorld d (tr ++ map EvGetString devs)).
Proof.
  intros Hs. induction devs as [|x devs IH]; intros d tr.
  - cbn. rewrite app_nil_r. reflexivity.
  - cbn [eligible_by_serial]. unfold bind at 1, call. cbn [bus trace].
    rewrite Hs. unfold bind at 1. rewrite IH. cbn [ret filter map].
    rewrite <- app_assoc.
    destruct (String.eqb ser (serial x)); reflexivity.
Qed.


(** ** set_alt *)

Lemma set_alt_interfaces_none (cfg : Cfg) (alt : Z) :
  forall (intfs : list Intf) (self : self_t) (k : Z) (w : world),
    no_altsetting usb cfg alt k intfs ->
    set_alt_interfaces usb self cfg alt k intfs w = (Ok self, w).
Proof.
  induction intfs as [|i intfs IH]; intros self k w H;
    cbn [set_alt_interfaces].
  - reflexivity.
  - destruct H as [[n Hn] Hrest]. rewrite Hn. apply IH. exact Hrest.
Qed.

Lemma set_alt_interfaces_bound (cfg : Cfg) (alt : Z) :
  forall (intfs : list Intf) (self : self_t) (k : Z) (w : world)
         (self' : self_t) (w' : world),
    set_alt_interfaces usb self cfg alt k intfs w = (Ok self', w') ->
    dev self' = dev self
    /\ (self' = self
        \/ cfg_getitem usb cfg (intNum self') alt = inr (intf self')).
Proof.
  induction intfs as [|i intfs IH]; intros self k w self' w' E;
    cbn [set_alt_interfaces] in E.
  - inversion E. auto.
  - destruct (cfg_getitem usb cfg k alt) as [e|a] eqn:Eg.
    + destruct e; try discriminate. exact (IH _ _ _ _ _ E).
    + unfold bind at 1, call in E.
      destruct (set_interface_altsetting usb (dev self) k alt (bus w))
        as [[e|[]] d1]; [discriminate|].
      destruct (IH _ _ _ _ _ E) as [Hd [->|Hi]].
      * split; [reflexivity|]. right. exact Eg.
      * split; [exact Hd|]. right. exact Hi.
Qed.

Lemma set_alt_configurations_bound (alt : Z) :
  forall (cfgs : list Cfg) (self : self_t) (w : world)
         (self' : self_t) (w' : world),
    set_alt_configurations usb self alt cfgs w = (Ok self', w') ->
    dev self' = dev self
    /\ (self' = self
        \/ exists cfg, In cfg cfgs
             /\ cfg_getitem usb cfg (intNum self') alt = inr (intf self')).
Proof.
  induction cfgs as [|c cfgs IH]; intros self w self' w' E;
    cbn [set_alt_configurations] in E.
  - inversion E. auto.
  - unfold bind in E.
    destruct (set_alt_interfaces usb self c alt 0 (interfaces usb c) w)
      as [[s1|e|] w1] eqn:Ei; try discriminate.
    destruct (set_alt_interfaces_bound c alt _ _ _ _ _ _ Ei) as [Hd1 H1].
    destruct (IH _ _ _ _ E) as [Hd2 H2].
    split; [congruence|].
    destruct H2 as [->|(cfg & Hin & Hi)].
    + destruct H1 as [->|Hi]; [left; reflexivity|].
      right. exists c. split; [left; reflexivity|exact Hi].
    + right. exists cfg. split; [right; exact Hin|exact Hi].
Qed.


End MoreFacts.

(** ** The path of a UDP descriptor *)

Module UdpFacts.

Import UdpBackend.

Lemma split_not_nil c s : split c s <> [].
Proof.
  destruct s as [|a s]; cbn [split]; [discriminate|].
  destruct (Ascii.eqb a c); [discriminate|].
  destruct (split c s); discriminate.
Qed.

Lemma split_one c :
  forall s y, split c s = [y] -> s = y /\ occurs c s = false.
Proof.
  induction s as [|a s IH]; intros y E; cbn [split] in E.
  - inversion E. split; reflexivity.
  - cbn [occurs]. destruct (Ascii.eqb a c) eqn:Ea.
    + inversion E as [[Hy Hs]]. destruct (split_not_nil c s Hs).
    + destruct (split c s) as [|h t] eqn:Es;
        [destruct (split_not_nil c s Es)|].
      inversion E; subst.
      destruct (IH h eq_refl) as [-> Ho]. split; [reflexivity|exact Ho].
Qed.

Lemma split_two c :
  forall s x y,
    split c s = [x; y] ->
    s = (x ++ String c y)%string
    /\ occurs c x = false /\ occurs c y = false.
Proof.
  induction s as [|a s IH]; intros x y E; cbn [split] in E;
    [discriminate|].
  destruct (Ascii.eqb_spec a c) as [->|Hne].
  - inversion E as [[Hx Hs]].
    destruct (split_one c s y Hs) as [-> Ho].
    repeat split; try reflexivity; exact Ho.
  - destruct (split c s) as [|h t] eqn:Es;
      [destruct (split_not_nil c s Es)|].
    inversion E; subst.
    destruct (IH h y eq_refl) as (-> & Hh & Hy).
    repeat split; try assumption.
    cbn [occurs]. rewrite Hh.
    destruct (Ascii.eqb_spec a c); [contradiction|reflexivity].
Qed.

Lemma split_none c :
  forall s, occurs c s = false -> split c s = [s].
Proof.
  induction s as [|a s IH]; intros H; cbn [split occurs] in *.
  - reflexivity.
  - apply orb_false_iff in H. destruct H as [Ha Hs].
    rewrite Ha, (IH Hs). reflexivity.
Qed.

Lemma split_at c :
  forall a b,
    occurs c a = false ->
    split c (a ++ String c b) = a :: split c b.
Proof.
  induction a as [|x a IH]; intros b H; cbn [split occurs append] in *.
  - rewrite Ascii.eqb_refl. reflexivity.
  - apply orb_false_iff in H. destruct H as [Hx Ha].
    rewrite Hx, (IH b Ha). reflexivity.
Qed.

Lemma occurs_app c :
  forall a b, occurs c (a ++ b) = occurs c a || occurs c b.
Proof.
  induction a as [|x a IH]; intros b; cbn [occurs append].
  - reflexivity.
  - rewrite IH, orb_assoc. reflexivity.
Qed.

Section Path.

Variable int : string -> option Z.

(** X19: a path of the form [addr:port<addr:port] is read as the remote
    end followed by the local end.  When the four pieces hold neither
    [:] nor [<] and [int] accepts both ports, [remote_local] gives back
    the two addresses and the two port numbers, the remote one first. *)
Theorem remote_local_of_well_formed_path :
  forall (a1 p1 a2 p2 : string) (n1 n2 : Z),
    occurs ":" a1 = false -> occurs "<" a1 = false ->
    occurs ":" p1 = false -> occurs "<" p1 = false ->
    occurs ":" a2 = false -> occurs "<" a2 = false ->
    occurs ":" p2 = false -> occurs "<" p2 = false ->
    int p1 = Some n1 -> int p2 = Some n2 ->
    remote_local int
      (a1 ++ String ":" p1 ++ String "<" (a2 ++ String ":" p2))%string
    = inr ((a1, n1), (a2, n2)).
Proof.
  intros a1 p1 a2 p2 n1 n2 Ha1 Ha1' Hp1 Hp1' Ha2 Ha2' Hp2 Hp2' Hn1 Hn2.
  unfold remote_local.
  replace (a1 ++ String ":" p1 ++ String "<" (a2 ++ String ":" p2))%string
    with ((a1 ++ String ":" p1) ++ String "<" (a2 ++ String ":" p2))%string.
  2:{ clear. induction a1 as [|x a1 IH]; cbn [append].
      - induction p1 as [|y p1 IH]; cbn [append]; [reflexivity|].
        reflexivity.
      - rewrite IH. reflexivity. }
  rewrite split_at.
  2:{ rewrite occurs_app. cbn [occurs]. rewrite Ha1', Hp1'. reflexivity. }
  rewrite split_none.
  2:{ rewrite occurs_app. cbn [occurs]. rewrite Ha2', Hp2'. reflexivity. }
  unfold addr_port.
  rewrite (split_at ":" a1 p1 Ha1), (split_none ":" p1 Hp1), Hn1.
  rewrite (split_at ":" a2 p2 Ha2), (split_none ":" p2 Hp2), Hn2.
  reflexivity.
Qed.

(** X20: nothing else is accepted.  When [remote_local] returns, the path
    is [addr:port<addr:port] with exactly one [<] and one [:] on each
    side of it, and the numbers are what [int] makes of the two ports; a
    path without [<], with a second [<], or with an address that holds a
    [:] raises ValueError. *)
Theorem remote_local_accepts_only_two_hosts :
  forall (path : string) (a1 a2 : string) (n1 n2 : Z),
    remote_local int path = inr ((a1, n1), (a2, n2)) ->
    exists p1 p2 : string,
      path = (a1 ++ String ":" p1 ++ String "<" (a2 ++ String ":" p2))%string
      /\ int p1 = Some n1 /\ int p2 = Some n2
      /\ occurs ":" a1 = false /\ occurs "<" a1 = false
      /\ occurs ":" p1 = false /\ occurs "<" p1 = false
      /\ occurs ":" a2 = false /\ occurs "<" a2 = false
      /\ occurs ":" p2 = false /\ occurs "<" p2 = false.
Proof.
  intros path a1 a2 n1 n2 E. unfold remote_local in E.
  destruct (split "<" path) as [|h1 [|h2 [|h3 t]]] eqn:Es;
    try discriminate.
  destruct (split_two "<" path h1 h2 Es) as (Hpath & Hh1 & Hh2).
  unfold addr_port in E.
  destruct (split ":" h1) as [|x1 [|y1 [|z1 t1]]] eqn:E1; try discriminate.
  destruct (int y1) as [m1|] eqn:I1; try discriminate.
  destruct (split ":" h2) as [|x2 [|y2 [|z2 t2]]] eqn:E2; try discriminate.
  destruct (int y2) as [m2|] eqn:I2; try discriminate.
  inversion E; subst a1 n1 a2 n2.
  destruct (split_two ":" h1 x1 y1 E1) as (H1 & Hx1 & Hy1).
  destruct (split_two ":" h2 x2 y2 E2) as (H2 & Hx2 & Hy2).
  subst h1 h2. rewrite occurs_app in Hh1, Hh2. cbn [occurs] in Hh1, Hh2.
  apply orb_false_iff in Hh1. destruct Hh1 as [Hx1' Hy1'].
  apply orb_false_iff in Hh2. destruct Hh2 as [Hx2' Hy2'].
  cbn [Ascii.eqb Bool.eqb orb] in Hy1', Hy2'.
  exists y1, y2. repeat split; try assumption.
  rewrite Hpath. clear.
  induction x1 as [|c x1 IH]; cbn [append]; [reflexivity|].
  rewrite IH. reflexivity.
Qed.

End Path.

End UdpFacts.


(** ** Runs on the scripted transport *)

Import Mock.

Example get_status_gives_up_after_3_retries :
  get_status usb cmds self
    (answering [stall; stall; stall; stall; reply 5 0])
  = (Raise (RuntimeError "Failed to get status from DFU."),
     mkWorld (mkBus [] [reply 5 0] [])
       [EvReceive 7%nat GETSTATUS 0 0 6; EvSleep 10;
        EvReceive 7%nat GETSTATUS 0 0 6; EvSleep 10;
        EvReceive 7%nat GETSTATUS 0 0 6; EvSleep 10;
        EvReceive 7%nat GETSTATUS 0 0 6]).
Proof. reflexivity. Qed.

Example get_status_survives_3_stalls :
  fst (get_status usb cmds self
         (answering [stall; stall; stall; reply 5 0]))
  = Ok (mkStatus 0 0 DOWNLOAD_IDLE).
Proof. reflexivity. Qed.

Example get_status_passes_other_errors_on :
  get_status usb cmds self
    (answering [stall; inl (USBError (Some 5)); reply 5 0])
  = (Raise (USBError (Some 5)),
     mkWorld (mkBus [] [reply 5 0] [])
       [EvReceive 7%nat GETSTATUS 0 0 6; EvSleep 10;
        EvReceive 7%nat GETSTATUS 0 0 6]).
Proof. reflexivity. Qed.

Example find_binds_the_only_device :
  find usb None 8 None 1 (start (mkBus [inr (FoundMany [4%nat])] [] []))
  = (Ok (mkDFU 4%nat 0 tt),
     mkWorld (mkBus [] [] [])
       [EvFind 0x0483 0xDF11; EvSetConfiguration 4%nat;
        EvSetAltsetting 4%nat 0 1]).
Proof. reflexivity. Qed.

Example find_filters_by_serial :
  fst (find usb (Some "12"%string) 8 None 1
         (start (mkBus [inr (FoundMany [1%nat; 12%nat])] [] [])))
  = Ok (mkDFU 12%nat 0 tt).
Proof. reflexivity. Qed.

(** C1, counterexample: on a device that reports [ERROR], [erase] returns
    the result of its download transfer and has queried no status, where
    the operation the claim describes queries the status twice and raises
    AssertionError. *)
Lemma erase_neither_waits_nor_asserts :
  erase usb self 0x08000000 (answering [reply 10 0; reply 10 0])
  = (Ok 5,
     mkWorld (mkBus [] [reply 10 0; reply 10 0] [])
       [EvSend 7%nat DNLOAD 0 0 (Some [0x41; 0; 0; 0; 8])])
  /\ erase_then_wait_and_assert usb cmds 1 self 0x08000000
       (answering [reply 10 0; reply 10 0])
     = (Raise AssertionError,
        mkWorld (mkBus [] [] [])
          [EvSend 7%nat DNLOAD 0 0 (Some [0x41; 0; 0; 0; 8]);
           EvReceive 7%nat GETSTATUS 0 0 6;
           EvReceive 7%nat GETSTATUS 0 0 6])
  /\ fst (erase usb self 0x08000000 (answering [reply 10 0; reply 10 0]))
     <> Raise AssertionError.
Proof. split; [reflexivity|]. split; [reflexivity|]. discriminate. Qed.

(** C8, counterexample: with no device on the bus and 3 attempts, [find]
    sleeps after the third enumeration as well; its trace is not the one
    with the back-off between attempts only. *)
Lemma find_sleeps_after_last_attempt :
  find usb None 3 None 1 (start (mkBus [] [] []))
  = (Raise (Exception_ "no DFU found"),
     mkWorld (mkBus [] [] [])
       [EvFind 0x0483 0xDF11; EvSleep 250;
        EvFind 0x0483 0xDF11; EvSleep 250;
        EvFind 0x0483 0xDF11; EvSleep 250])
  /\ trace (snd (find usb None 3 None 1 (start (mkBus [] [] []))))
     <> backoff_between_attempts 3.
Proof. split; [reflexivity|]. discriminate. Qed.

(** ** The theorems at work on the scripted transport *)

(** A device stuck in [ERROR]: both status queries of the check report it,
    the two clears go through, and the three operations raise. *)
Lemma state_precondition_pattern_witness :
  let w := answering [reply 10 0; reply 10 0] in
  let w4 :=
    mkWorld (mkBus [] [] [])
      [EvReceive 7%nat GETSTATUS 0 0 6;
       EvSend 7%nat CLRSTATUS 0 0 None; EvSend 7%nat CLRSTATUS 0 0 None;
       EvReceive 7%nat GETSTATUS 0 0 6] in
  write_page usb cmds 3 self 0x08000000 [1; 2] w
  = (Raise (RuntimeError
              "DFU device not in correct state for writing memory."), w4)
  /\ detach usb cmds self w
     = (Raise (RuntimeError
                 "DFU device not in correct state for detaching."), w4)
  /\ read_mem usb cmds self 0x08000000 2 w
     = (Raise (RuntimeError
                 "DFU device not in correct state for reading memory."), w4).
Proof.
  intros w w4.
  destruct (state_precondition_pattern usb cmds 3 self 0x08000000 [1; 2]
              0x08000000 2 w
              (mkWorld (mkBus [] [reply 10 0] [])
                 [EvReceive 7%nat GETSTATUS 0 0 6])
              (mkWorld (mkBus [] [reply 10 0] [])
                 [EvReceive 7%nat GETSTATUS 0 0 6;
                  EvSend 7%nat CLRSTATUS 0 0 None])
              (mkWorld (mkBus [] [reply 10 0] [])
                 [EvReceive 7%nat GETSTATUS 0 0 6;
                  EvSend 7%nat CLRSTATUS 0 0 None;
                  EvSend 7%nat CLRSTATUS 0 0 None])
              w4 ERROR ERROR
              eq_refl eq_refl eq_refl eq_refl ltac:(discriminate))
    as (_ & Hwd & Hr).
  destruct (Hwd eq_refl eq_refl) as [Hw Hd].
  split; [exact Hw|]. split; [exact Hd|]. exact (Hr eq_refl eq_refl).
Defined.

(** A device that is busy once and then reports [ERROR]. *)
Lemma write_and_erase_assert_download_idle_witness :
  fst (mass_erase usb cmds 3 self
         (answering [reply 4 5; reply 10 0; reply 10 0]))
  = Raise AssertionError
  /\ fst (write_page usb cmds 3 self 0x08000008 [1; 2; 3; 4]
            (answering [reply 2 0; reply 2 0;
                        reply 4 5; reply 10 0; reply 10 0]))
     = Raise AssertionError.
Proof.
  split.
  - pose (tr := [EvSend 7%nat DNLOAD 0 0 (Some [0x41])]).
    destruct (write_and_erase_assert_download_idle usb cmds 3 self
                (mkWorld (mkBus [] [reply 4 5; reply 10 0; reply 10 0] [])
                   tr)
                (mkWorld (mkBus [] [reply 10 0] [])
                   (tr ++ [EvReceive 7%nat GETSTATUS 0 0 6; EvSleep 5;
                           EvReceive 7%nat GETSTATUS 0 0 6]))
                (mkWorld (mkBus [] [] [])
                   (tr ++ [EvReceive 7%nat GETSTATUS 0 0 6; EvSleep 5;
                           EvReceive 7%nat GETSTATUS 0 0 6;
                           EvReceive 7%nat GETSTATUS 0 0 6]))
                ERROR eq_refl eq_refl ltac:(discriminate)) as [Hm _].
    rewrite (Hm (answering [reply 4 5; reply 10 0; reply 10 0]) 1 eq_refl).
    reflexivity.
  - pose (tr := [EvReceive 7%nat GETSTATUS 0 0 6;
                 EvReceive 7%nat GETSTATUS 0 0 6;
                 EvSend 7%nat DNLOAD 4 0 (Some [1; 2; 3; 4])]).
    destruct (write_and_erase_assert_download_idle usb cmds 3 self
                (mkWorld (mkBus [] [reply 4 5; reply 10 0; reply 10 0] [])
                   tr)
                (mkWorld (mkBus [] [reply 10 0] [])
                   (tr ++ [EvReceive 7%nat GETSTATUS 0 0 6; EvSleep 5;
                           EvReceive 7%nat GETSTATUS 0 0 6]))
                (mkWorld (mkBus [] [] [])
                   (tr ++ [EvReceive 7%nat GETSTATUS 0 0 6; EvSleep 5;
                           EvReceive 7%nat GETSTATUS 0 0 6;
                           EvReceive 7%nat GETSTATUS 0 0 6]))
                ERROR eq_refl eq_refl ltac:(discriminate)) as [_ Hw].
    rewrite (Hw (answering [reply 2 0; reply 2 0;
                            reply 4 5; reply 10 0; reply 10 0])
                (mkWorld (mkBus [] [reply 4 5; reply 10 0; reply 10 0] [])
                   [EvReceive 7%nat GETSTATUS 0 0 6;
                    EvReceive 7%nat GETSTATUS 0 0 6])
                0x08000008 4 4 [1; 2; 3; 4] eq_refl eq_refl eq_refl).
    reflexivity.
Defined.

(** The transport of the claim: busy, busy, then idle; 3 status queries,
    a sleep of 10 ms and one of 20 ms. *)
Lemma block_on_state_returns_at_first_other_state_witness :
  block_on_state usb cmds 2 self DOWNLOAD_BUSY
    (answering [reply 4 10; reply 4 20; reply 5 0])
  = (Ok tt,
     mkWorld (mkBus [] [] [])
       [EvReceive 7%nat GETSTATUS 0 0 6; EvSleep 10;
        EvReceive 7%nat GETSTATUS 0 0 6; EvSleep 20;
        EvReceive 7%nat GETSTATUS 0 0 6]).
Proof.
  apply (block_on_state_returns_at_first_other_state usb cmds self
           DOWNLOAD_BUSY
           [mkStatus 0 10 DOWNLOAD_BUSY; mkStatus 0 20 DOWNLOAD_BUSY]
           (mkStatus 0 0 DOWNLOAD_IDLE)
           (mkBus [] [reply 4 10; reply 4 20; reply 5 0] [])
           (mkBus [] [] []) [] 2%nat).
  - repeat constructor.
  - discriminate.
  - simpl. repeat (eexists; eexists; split; [reflexivity|];
                   split; [reflexivity|]). reflexivity.
  - simpl. lia.
Defined.

Lemma find_fails_at_once_when_not_unique_witness :
  find usb None 8 None 1
    (start (mkBus [inr (FoundMany [1%nat; 2%nat])] [] []))
  = (Raise NonUniqueDeviceError,
     mkWorld (mkBus [] [] []) [EvFind 0x0483 0xDF11]).
Proof.
  apply (find_fails_at_once_when_not_unique usb 8 1 [1%nat; 2%nat]
           (mkBus [inr (FoundMany [1%nat; 2%nat])] [] [])
           (mkBus [] [] []) []).
  - reflexivity.
  - reflexivity.
  - simpl. lia.
Defined.

(** An empty bus stays empty: 3 attempts, 3 enumerations, 3 sleeps. *)
Lemma find_retries_then_not_found_witness :
  exists d' evs,
    find usb None 3 None 1 (start (mkBus [] [] []))
    = (Raise (Exception_ "no DFU found"), mkWorld d' ([] ++ evs))
    /\ filter is_find_or_sleep evs
       = [EvFind 0x0483 0xDF11; EvSleep 250;
          EvFind 0x0483 0xDF11; EvSleep 250;
          EvFind 0x0483 0xDF11; EvSleep 250]
    /\ finds d' = [].
Proof.
  apply (find_retries_then_not_found usb None 3 1
           (fun b => finds b = [])).
  - intros d Hd. exists d. split; [|exact Hd].
    exists FoundNone, d. simpl. rewrite Hd. split; [reflexivity|].
    split; reflexivity.
  - reflexivity.
Defined.

(** The option bytes are read and written at block -8388606. *)
Lemma option_bytes_use_block_below_zero_witness :
  read_option_bytes usb cmds 3 self
    (answering [reply 5 0; reply 2 0; reply 2 0; inr option_bytes_flash])
  = (Ok option_bytes_flash,
     mkWorld (mkBus [] [] [])
       [EvSend 7%nat DNLOAD 0 0 (Some [0x21; 0x00; 0x78; 0xFF; 0x1F]);
        EvReceive 7%nat GETSTATUS 0 0 6;
        EvReceive 7%nat GETSTATUS 0 0 6;
        EvReceive 7%nat GETSTATUS 0 0 6;
        EvReceive 7%nat UPLOAD (-8388606) 0 16])
  /\ write_option_bytes usb cmds 3 self option_bytes_flash
       (answering [reply 5 0; reply 5 0; reply 5 0;
                   reply 5 0; reply 5 0; reply 5 0])
     = (Ok tt,
        mkWorld (mkBus [] [] [])
          [EvReceive 7%nat GETSTATUS 0 0 6;
           EvReceive 7%nat GETSTATUS 0 0 6;
           EvReceive 7%nat GETSTATUS 0 0 6;
           EvSend 7%nat DNLOAD (-8388606) 0 (Some option_bytes_flash);
           EvReceive 7%nat GETSTATUS 0 0 6;
           EvReceive 7%nat GETSTATUS 0 0 6;
           EvReceive 7%nat GETSTATUS 0 0 6]).
Proof.
  destruct (option_bytes_use_block_below_zero usb cmds)
    as (_ & _ & _ & Hread & Hwrite).
  split.
  - set (w := answering
                [reply 5 0; reply 2 0; reply 2 0; inr option_bytes_flash]).
    set (w1 := snd (set_addr usb self 0x1FFF7800 w)).
    set (w2 := snd (block_on_state usb cmds 3 self DOWNLOAD_BUSY w1)).
    set (w3 := snd (check_state usb cmds self [IDLE; UPLOAD_IDLE]
                      "DFU device not in correct state for reading memory."
                      w2)).
    destruct (Hread 3%nat self w w1 w2 w3 5 eq_refl eq_refl eq_refl)
      as [E _].
    rewrite E. reflexivity.
  - set (w := answering [reply 5 0; reply 5 0; reply 5 0;
                         reply 5 0; reply 5 0; reply 5 0]).
    set (w1 := snd (block_on_state usb cmds 3 self DOWNLOAD_BUSY w)).
    set (w2 := snd (check_state usb cmds self [IDLE; DOWNLOAD_IDLE]
                      "DFU device not in correct state for writing memory."
                      w1)).
    destruct (Hwrite 3%nat self option_bytes_flash w w1 w2
                eq_refl eq_refl eq_refl) as [E _].
    rewrite E. reflexivity.
Defined.


(** ** The further properties at work *)

Lemma boot_word_settles_witness :
  Z.land (nBOOT0 cmds) (nSWBOOT0 cmds) = 0
  /\ boot_word cmds (boot_word cmds 0xF7FFF8AA) = boot_word cmds 0xF7FFF8AA
  /\ (boot_word cmds 0xFBFFF8AA = 0xFBFFF8AA
      <-> Z.land 0xFBFFF8AA (nBOOT0 cmds) = nBOOT0 cmds
          /\ Z.land 0xFBFFF8AA (nSWBOOT0 cmds) = 0).
Proof.
  assert (H : Z.land (nBOOT0 cmds) (nSWBOOT0 cmds) = 0) by reflexivity.
  split; [exact H|]. split.
  - exact (proj1 (boot_word_settles cmds 0xF7FFF8AA)).
  - exact (proj2 (boot_word_settles cmds 0xFBFFF8AA) H).
Defined.

Lemma zero_length_transfers_raise_witness :
  read_mem usb cmds self 0x08000000 0 (answering [reply 2 0])
  = (Raise ZeroDivisionError, answering [reply 2 0])
  /\ write_page usb cmds 3 self 0x08000000 []
       (answering [reply 2 0; reply 2 0])
     = (Raise ZeroDivisionError,
        mkWorld (mkBus [] [] [])
          [EvReceive 7%nat GETSTATUS 0 0 6; EvReceive 7%nat GETSTATUS 0 0 6]).
Proof.
  split.
  - exact (proj1 (zero_length_transfers_raise usb cmds 3 self 0x08000000
                    (answering [reply 2 0]))).
  - apply (proj2 (proj2 (zero_length_transfers_raise usb cmds 3 self
                           0x08000000 (answering [reply 2 0; reply 2 0])))).
    reflexivity.
Defined.

Lemma operations_proceed_in_valid_state_witness :
  let w := answering [reply 2 0; reply 2 0; inr option_bytes_app] in
  read_mem usb cmds self 0x08000010 16 w
  = (Ok option_bytes_app,
     mkWorld (mkBus [] [] [])
       [EvReceive 7%nat GETSTATUS 0 0 6; EvReceive 7%nat GETSTATUS 0 0 6;
        EvReceive 7%nat UPLOAD 3 0 16]).
Proof.
  intros w.
  set (w1 := snd (state usb cmds self w)).
  set (w2 := snd (state usb cmds self w1)).
  destruct (operations_proceed_in_valid_state usb cmds 3 self
              0x08000000 [1] 0x08000010 16 w w1 w2 IDLE IDLE
              eq_refl eq_refl ltac:(discriminate)) as (_ & _ & Hr).
  rewrite (Hr eq_refl eq_refl). reflexivity.
Defined.

Lemma operations_recover_after_two_clears_witness :
  let w := answering [reply 10 0; reply 2 0; reply 2 0] in
  detach usb cmds self w
  = (Ok (mkStatus 0 0 IDLE),
     mkWorld (mkBus [] [] [])
       [EvReceive 7%nat GETSTATUS 0 0 6;
        EvSend 7%nat CLRSTATUS 0 0 None; EvSend 7%nat CLRSTATUS 0 0 None;
        EvReceive 7%nat GETSTATUS 0 0 6;
        EvSend 7%nat DNLOAD 0 0 (Some []);
        EvReceive 7%nat GETSTATUS 0 0 6]).
Proof.
  intros w.
  set (w1 := snd (state usb cmds self w)).
  set (w2 := snd (clear_status usb self w1)).
  set (w3 := snd (clear_status usb self w2)).
  set (w4 := snd (state usb cmds self w3)).
  destruct (operations_recover_after_two_clears usb cmds 3 self
              0x08000000 [1] 0x08000000 16 w w1 w2 w3 w4 ERROR IDLE
              eq_refl eq_refl eq_refl eq_refl ltac:(discriminate))
    as (Hw & _).
  rewrite (proj2 (Hw eq_refl eq_refl)). reflexivity.
Defined.

Lemma failed_clear_ends_the_operation_witness :
  let w := mkWorld (mkBus [] [reply 10 0] [inl (USBError (Some 5))]) [] in
  write_page usb cmds 3 self 0x08000000 [1; 2] w
  = (Raise (USBError (Some 5)),
     mkWorld (mkBus [] [] [])
       [EvReceive 7%nat GETSTATUS 0 0 6; EvSend 7%nat CLRSTATUS 0 0 None]).
Proof.
  intros w.
  set (w1 := snd (state usb cmds self w)).
  set (w2 := snd (clear_status usb self w1)).
  destruct (failed_clear_ends_the_operation usb cmds 3 self
              0x08000000 [1; 2] 0x08000000 16 w w1 w2 ERROR
              (USBError (Some 5)) eq_refl eq_refl ltac:(discriminate))
    as (_ & Hw & _).
  rewrite (proj1 (Hw eq_refl)). reflexivity.
Defined.

(** The download of the write stalls for good: the warning is printed and
    the call returns. *)
Lemma write_option_bytes_swallows_oserror_of_the_write_witness :
  let w := mkWorld (mkBus [] [reply 5 0; reply 5 0; reply 5 0]
                      [inl (USBError (Some 32))]) [] in
  write_option_bytes usb cmds 3 self option_bytes_flash w
  = (Ok tt,
     mkWorld (mkBus [] [] [])
       [EvReceive 7%nat GETSTATUS 0 0 6;
        EvReceive 7%nat GETSTATUS 0 0 6; EvReceive 7%nat GETSTATUS 0 0 6;
        EvSend 7%nat DNLOAD (-8388606) 0 (Some option_bytes_flash);
        EvPrint "Warning: OSError with write_page"]).
Proof.
  intros w.
  set (w1 := snd (block_on_state usb cmds 3 self DOWNLOAD_BUSY w)).
  set (w2 := snd ((write_page usb cmds 3 self 0 option_bytes_flash ;;
                   block_on_state usb cmds 3 self DOWNLOAD_BUSY) w1)).
  rewrite (proj2 (write_option_bytes_swallows_oserror_of_the_write
                    usb cmds 3 self option_bytes_flash w)
             w1 (USBError (Some 32)) w2 eq_refl eq_refl).
  reflexivity.
Defined.

Lemma write_and_erase_return_on_download_idle_witness :
  mass_erase usb cmds 3 self (answering [reply 4 5; reply 5 0; reply 5 0])
  = (Ok tt,
     mkWorld (mkBus [] [] [])
       [EvSend 7%nat DNLOAD 0 0 (Some [0x41]);
        EvReceive 7%nat GETSTATUS 0 0 6; EvSleep 5;
        EvReceive 7%nat GETSTATUS 0 0 6; EvReceive 7%nat GETSTATUS 0 0 6]).
Proof.
  set (w := answering [reply 4 5; reply 5 0; reply 5 0]).
  set (w1 := snd (dnload usb self 0 [0x41] w)).
  set (w2 := snd (block_on_state usb cmds 3 self DOWNLOAD_BUSY w1)).
  set (w3 := snd (state usb cmds self w2)).
  destruct (write_and_erase_return_on_download_idle usb cmds 3 self
              w1 w2 w3 eq_refl eq_refl) as [Hm _].
  rewrite (Hm w 1 eq_refl). reflexivity.
Defined.

(** The device that stays busy: with fuel 2, three status transfers, two
    sleeps of 7 ms, and no result. *)
Lemma block_on_state_waits_as_long_as_busy_witness :
  exists d' busy,
    block_on_state always_busy cmds 2 self DOWNLOAD_BUSY
      (start (mkBus [] [] []))
    = (OutOfFuel,
       mkWorld d' ([] ++ poll_events self busy ++ [ev_getstatus self]))
    /\ List.length busy = 2%nat
    /\ Forall (fun s => state_of s = DOWNLOAD_BUSY) busy
    /\ True.
Proof.
  apply (block_on_state_waits_as_long_as_busy always_busy cmds self
           DOWNLOAD_BUSY (fun _ => True)).
  - intros d _. exists [0; 7; 0; 0; 4; 0], d, (mkStatus 0 7 DOWNLOAD_BUSY).
    repeat split; reflexivity.
  - exact I.
Defined.


Lemma find_all_binds_every_device_witness :
  find_all usb (start (mkBus [inr (FoundMany [])] [] []))
  = (Ok [], mkWorld (mkBus [] [] []) [EvFind 0x0483 0xDF11])
  /\ exists r d',
       usb_core_find usb 0x0483 0xDF11
         (mkBus [inr (FoundMany [3%nat; 5%nat])] [] []) = (inr r, d')
       /\ map dev [mkDFU 3%nat 0 tt; mkDFU 5%nat 0 tt] = devices_of r.
Proof.
  destruct (find_all_binds_every_device usb) as [Hnil Hall].
  split.
  - exact (Hnil (mkBus [inr (FoundMany [])] [] []) (mkBus [] [] []) []
             (FoundMany []) eq_refl eq_refl).
  - exact (Hall (start (mkBus [inr (FoundMany [3%nat; 5%nat])] [] []))
             [mkDFU 3%nat 0 tt; mkDFU 5%nat 0 tt]
             (mkWorld (mkBus [] [] [])
                [EvFind 0x0483 0xDF11;
                 EvSetConfiguration 3%nat; EvSetAltsetting 3%nat 0 1;
                 EvSetConfiguration 5%nat; EvSetAltsetting 5%nat 0 1])
             eq_refl).
Defined.




(** The path of [list_descriptors]. *)
Lemma remote_local_of_well_formed_path_witness :
  UdpBackend.remote_local digits_int "localhost:8111<localhost:7112"
  = inr (("localhost"%string, 8111), ("localhost"%string, 7112)).
Proof.
  exact (UdpFacts.remote_local_of_well_formed_path digits_int
           "localhost" "8111" "localhost" "7112" 8111 7112
           eq_refl eq_refl eq_refl eq_refl eq_refl eq_refl eq_refl eq_refl
           eq_refl eq_refl).
Defined.

Lemma remote_local_accepts_only_two_hosts_witness :
  exists p1 p2 : string,
    "localhost:8111<localhost:7112"%string
    = ("localhost" ++ String ":" p1
       ++ String "<" ("localhost" ++ String ":" p2))%string
    /\ digits_int p1 = Some 8111 /\ digits_int p2 = Some 7112
    /\ UdpBackend.occurs ":" "localhost" = false
    /\ UdpBackend.occurs "<" "localhost" = false
    /\ UdpBackend.occurs ":" p1 = false /\ UdpBackend.occurs "<" p1 = false
    /\ UdpBackend.occurs ":" "localhost" = false
    /\ UdpBackend.occurs "<" "localhost" = false
    /\ UdpBackend.occurs ":" p2 = false /\ UdpBackend.occurs "<" p2 = false.
Proof.
  exact (UdpFacts.remote_local_accepts_only_two_hosts digits_int
           "localhost:8111<localhost:7112" "localhost" "localhost"
           8111 7112 eq_refl).
Defined.
